(** * voice-agent: the mock banking tools of the voice assistant

    A shallow embedding of [src/mock/backend.ts], of the callbacks and
    handlers of the [Conversation] component ([handleToolCall],
    [handleMessage], [startConversation] with the callbacks it registers,
    [stopConversation], the API key handlers, the session button) and of
    the [TransactionHistory] component, with the properties of the banking
    tools, of the transcript and of the life of a session proved over it.
    The playback of the audio that the session returns is left out: it runs
    on the clock of the audio context, across an [await], through helpers
    of [utils/audio].

    Conventions of the embedding:
    - a JavaScript [number] holding a balance, an amount or a limit is an
      integer ([Z]): the doubles of the source compute [+], [-] and [<] on
      whole numbers exactly as long as operands and results stay within
      2^53 ([Numbers.exact_below]). A statement that needs exact sums says
      so; [Doubles] has the update of a transfer on doubles, for amounts
      with cents;
    - a string is a [string] of bytes; [toLowerCase] and [trim] act on the
      ASCII range;
    - React state and refs are the fields of one record, [Component]. A
      state setter called with a value, or with an updater that reads only
      its argument, is applied where it is called. An updater that reads a
      ref (those of [handleMessage]) is queued and applied once the handler
      has returned, and reads the ref as it is then;
    - calls on objects outside the component (the session, the media stream,
      the audio nodes, the console) are collected in a list of [Effect]s, in
      the order in which the objects receive them;
    - a value that a callback closes over at render time (the [accounts] that
      [handleToolCall] reads) is an argument of the callback; for the
      callback of a running session it is the value of the render that
      started the session ([Closure.onmessage]);
    - an async handler is split where it awaits ([before_await],
      [after_await]); [Session.step] lets other events run in between. *)

From Stdlib Require Import ZArith QArith Qround List String Ascii Bool Lia.
From Stdlib Require Import DecimalString DecimalZ DecimalPos Lqa PrimFloat.
Import ListNotations.

Local Open Scope string_scope.
Local Open Scope Z_scope.

(** ** JavaScript built-ins used by the sources *)

Module JS.

(** A thrown value. Only the kind matters here. *)
Inductive Exn : Type :=
| TypeError (message : string)
| Rejected (reason : string).

(** The completion of a piece of code that may throw. *)
Inductive Completion (A : Type) : Type :=
| Normal (value : A)
| Throw (e : Exn).

Arguments Normal {A} value.
Arguments Throw {A} e.

Definition lower_ascii (c : ascii) : ascii :=
  let n := nat_of_ascii c in
  if ((65 <=? n) && (n <=? 90))%nat then ascii_of_nat (n + 32) else c.

(** [String.prototype.toLowerCase]. *)
Fixpoint toLowerCase (s : string) : string :=
  match s with
  | EmptyString => EmptyString
  | String c rest => String (lower_ascii c) (toLowerCase rest)
  end.

Definition is_whitespace (c : ascii) : bool :=
  let n := nat_of_ascii c in
  ((9 <=? n) && (n <=? 13) || (n =? 32))%nat.

Fixpoint trimStart (s : string) : string :=
  match s with
  | EmptyString => EmptyString
  | String c rest => if is_whitespace c then trimStart rest else s
  end.

Fixpoint trimEnd (s : string) : string :=
  match s with
  | EmptyString => EmptyString
  | String c rest =>
      match trimEnd rest with
      | EmptyString => if is_whitespace c then EmptyString else String c EmptyString
      | kept => String c kept
      end
  end.

(** [String.prototype.trim]. *)
Definition trim (s : string) : string := trimEnd (trimStart s).

(** Truthiness of a string: every string but the empty one. *)
Definition truthy (s : string) : bool := negb (s =? "")%string.

(** [Array.prototype.slice(0, end)]: a negative [end] counts from the end
    of the array, and the bounds are clamped to the array. *)
Definition slice0 {A : Type} (arr : list A) (end_ : Z) : list A :=
  let len := Z.of_nat (List.length arr) in
  let final := if end_ <? 0 then Z.max (len + end_) 0 else Z.min end_ len in
  firstn (Z.to_nat final) arr.

(** The property names every object literal inherits from
    [Object.prototype]. *)
Definition Object_prototype : list string :=
  [ "constructor"; "__proto__"; "hasOwnProperty"; "isPrototypeOf";
    "propertyIsEnumerable"; "toLocaleString"; "toString"; "valueOf";
    "__defineGetter__"; "__defineSetter__"; "__lookupGetter__";
    "__lookupSetter__" ].

(** What [obj[key]] finds on an object literal whose own properties hold
    values of type [A]: an own property, a member of [Object.prototype]
    (a function or the prototype object itself), or [undefined]. *)
Inductive Property (A : Type) : Type :=
| Own (value : A)
| Inherited (name : string)
| Undefined.

Arguments Own {A} value.
Arguments Inherited {A} name.
Arguments Undefined {A}.

Definition inherited (key : string) : bool :=
  existsb (String.eqb key) Object_prototype.

(** Template-literal rendering of an integer. *)
Definition string_of_Z (z : Z) : string := NilZero.string_of_int (Z.to_int z).

End JS.

(** ** src/mock/backend.ts *)

Module Backend.
Import JS.

Inductive TransactionType : Type := debit | credit.

Inductive AccountType : Type := Checking | Savings.

Definition AccountType_name (a : AccountType) : string :=
  match a with Checking => "checking" | Savings => "savings" end.

(** [date] is kept as the instant (milliseconds since the epoch) whose UTC
    calendar day [toISOString().split('T')[0]] prints. *)
Record MockTransaction : Type := {
  id : string;
  date : Z;
  description : string;
  amount : Q;
  type : TransactionType
}.

(** The two sources of non-determinism of the module: the successive
    results of [Math.random()] and the successive readings of the clock
    ([new Date()], [Date.now()]). *)
Record Entropy : Type := {
  randoms : nat -> Q;
  clock : nat -> Z
}.

Record Cursor : Type := { drawn : nat; read : nat }.

Definition Gen (A : Type) : Type := Cursor -> A * Cursor.

Definition ret {A : Type} (a : A) : Gen A := fun k => (a, k).

Definition bind {A B : Type} (m : Gen A) (f : A -> Gen B) : Gen B :=
  fun k => let (a, k') := m k in f a k'.

Notation "x <- m ;; f" := (bind m (fun x => f))
  (at level 61, m at next level, right associativity).

Definition descriptions (accountType : AccountType) : list string :=
  match accountType with
  | Checking => [ "Grocery Store"; "Gas Station"; "Online Purchase"; "Coffee Shop";
                  "Restaurant"; "Utility Bill"; "Paycheck Deposit" ]
  | Savings => [ "Transfer from Checking"; "Interest Earned"; "Dividend Payment";
                 "Initial Deposit" ]
  end.

(** [parseFloat(x.toFixed(2))]: [x] rounded to hundredths. *)
Definition toFixed2 (x : Q) : Q :=
  Qmake (Qfloor (x * 100 + (1 # 2))) 100.

Definition Q_gt (x y : Q) : bool := negb (Qle_bool x y).

Section Generator.
Variable entropy : Entropy.

Definition Math_random : Gen Q :=
  fun k => (randoms entropy (drawn k), {| drawn := S (drawn k); read := read k |}).

Definition Date_now : Gen Z :=
  fun k => (clock entropy (read k), {| drawn := drawn k; read := S (read k) |}).

(** One iteration of the [for] loop: the transaction pushed at index [i]. *)
Definition transaction_at (accountType : AccountType) (today : Z) (i : nat)
  : Gen MockTransaction :=
  r <- Math_random ;;
  let isCredit :=
    match accountType with
    | Savings => Q_gt r (2 # 10)
    | Checking => Q_gt r (8 # 10)
    end in
  r' <- Math_random ;;
  let index := Qfloor (r' * inject_Z (Z.of_nat (List.length (descriptions accountType)))) in
  let randomDescription := nth (Z.to_nat index) (descriptions accountType) "" in
  now <- Date_now ;;
  r'' <- Math_random ;;
  ret {| id := AccountType_name accountType ++ "-" ++ string_of_Z (Z.of_nat i)
                 ++ "-" ++ string_of_Z now;
         date := today - Z.of_nat i * 24 * 60 * 60 * 1000;
         description := randomDescription;
         amount := toFixed2 (r'' * (if isCredit then 500 else 200) + 5);
         type := if isCredit then credit else debit |}.

(** The loop [for (let i = 0; i < count; i++)], entered at index [i] with
    [remaining = count - i] iterations to go. *)
Fixpoint push_from (accountType : AccountType) (today : Z) (remaining i : nat)
  (transactions : list MockTransaction) : Gen (list MockTransaction) :=
  match remaining with
  | O => ret transactions
  | S remaining' =>
      tx <- transaction_at accountType today i ;;
      push_from accountType today remaining' (S i) (transactions ++ [tx])%list
  end.

Definition generateRandomTransactions (accountType : AccountType) (count : nat)
  : Gen (list MockTransaction) :=
  today <- Date_now ;;
  push_from accountType today count 0 [].

Record MockData : Type := {
  checking : list MockTransaction;
  savings : list MockTransaction
}.

(** The module constant, evaluated once when the module is loaded. *)
Definition mockData : MockData :=
  fst ((c <- generateRandomTransactions Checking 20 ;;
        s <- generateRandomTransactions Savings 15 ;;
        ret {| checking := c; savings := s |}) {| drawn := 0; read := 0 |}).

(** [mockData[accountType]] for an arbitrary string. *)
Definition mockData_get (accountType : string) : Property (list MockTransaction) :=
  if (accountType =? "checking")%string then Own (checking mockData)
  else if (accountType =? "savings")%string then Own (savings mockData)
  else if inherited accountType then Inherited accountType
  else Undefined.

(** [mockData[accountType]?.slice(0, limit) || []]. An array is truthy,
    [undefined] short-circuits the optional chain, and any other value
    is asked for a [slice] method it does not have. *)
Definition getMockTransactionHistory (accountType : string) (limit : option Z)
  : Completion (list MockTransaction) :=
  let limit := match limit with Some n => n | None => 10 end in
  match mockData_get accountType with
  | Own transactions => Normal (slice0 transactions limit)
  | Inherited name =>
      Throw (TypeError ("mockData[accountType]?.slice is not a function"))
  | Undefined => Normal []
  end.

End Generator.

Arguments mockData : simpl never.

(** A sample environment, for closed examples. *)
Definition sample_entropy : Entropy :=
  {| randoms := fun n => Qmake (Z.of_nat (n mod 10)) 10;
     clock := fun n => 1700000000000 + Z.of_nat n |}.

End Backend.


(** ** src/types.ts *)

Module Types.

Inductive Sender : Type := User | Agent.

Definition Sender_eqb (a b : Sender) : bool :=
  match a, b with
  | User, User | Agent, Agent => true
  | _, _ => false
  end.

Record Message : Type := {
  id : string;
  sender : Sender;
  text : string
}.

End Types.

(** ** The messages of the realtime session, as the component reads them *)

Module GenAI.

(** The arguments of a function call. A field that the declaration of the
    called function lists under [required] is present; [limit] is
    optional, and an argument that the called function does not declare is
    ignored by the component. *)
Record Args : Type := {
  accountType : string;
  amount : Z;
  fromAccount : string;
  toAccount : string;
  limit : option Z
}.

Record FunctionCall : Type := {
  id : string;
  name : string;
  args : Args
}.

Record ServerContent : Type := {
  outputTranscription : option string;
  inputTranscription : option string;
  turnComplete : bool
}.

Record LiveServerMessage : Type := {
  toolCall : option (list FunctionCall);
  serverContent : option ServerContent
}.

End GenAI.

(** ** The Conversation component *)

Module Conversation.
Import JS Types.

(** Objects of the browser and of the SDK, known by identity only. *)
Definition SessionPromise : Type := nat.
Definition AudioContext : Type := nat.
Definition MediaStream : Type := nat.
Definition ScriptProcessorNode : Type := nat.
Definition MediaStreamAudioSourceNode : Type := nat.

(** Mock bank account data. *)
Record Accounts : Type := {
  checking : Z;
  savings : Z
}.

Definition Key : Type := Backend.AccountType.

(** [keyof Accounts]: the key that a string names, for the strings on which
    [accounts.hasOwnProperty] answers true, and [None] for the others. The
    keys of the object never change: the only update spreads the previous
    object and assigns keys it already has. *)
Definition keyof (key : string) : option Key :=
  if (key =? "checking")%string then Some Backend.Checking
  else if (key =? "savings")%string then Some Backend.Savings
  else None.

(** [accounts[key]]. *)
Definition get (accounts : Accounts) (key : Key) : Z :=
  match key with
  | Backend.Checking => checking accounts
  | Backend.Savings => savings accounts
  end.

(** [{ ...accounts, [key]: value }]. *)
Definition assign (key : Key) (value : Z) (accounts : Accounts) : Accounts :=
  match key with
  | Backend.Checking => {| checking := value; savings := savings accounts |}
  | Backend.Savings => {| checking := checking accounts; savings := value |}
  end.

Inductive Status : Type := idle | connecting | connected.

(** The state variables ([useState]) and the refs ([useRef], by their
    [current]) of the component. *)
Record Component : Type := {
  isRecording : bool;
  transcript : list Message;
  error : option string;
  status : Status;
  accounts : Accounts;
  apiKeySelected : bool;
  transactions : list Backend.MockTransaction;
  viewingHistory : option string;
  sessionPromiseRef : option SessionPromise;
  inputAudioContextRef : option AudioContext;
  outputAudioContextRef : option AudioContext;
  mediaStreamRef : option MediaStream;
  scriptProcessorRef : option ScriptProcessorNode;
  mediaStreamSourceRef : option MediaStreamAudioSourceNode;
  currentInputTranscriptionRef : string;
  currentOutputTranscriptionRef : string
}.

(** State setters called with a value, and assignments to [ref.current]. *)

Definition setIsRecording (v : bool) (c : Component) : Component :=
  {| isRecording := v; transcript := transcript c; error := error c; status := status c;
     accounts := accounts c; apiKeySelected := apiKeySelected c;
     transactions := transactions c; viewingHistory := viewingHistory c;
     sessionPromiseRef := sessionPromiseRef c;
     inputAudioContextRef := inputAudioContextRef c;
     outputAudioContextRef := outputAudioContextRef c;
     mediaStreamRef := mediaStreamRef c; scriptProcessorRef := scriptProcessorRef c;
     mediaStreamSourceRef := mediaStreamSourceRef c;
     currentInputTranscriptionRef := currentInputTranscriptionRef c;
     currentOutputTranscriptionRef := currentOutputTranscriptionRef c |}.

Definition put_transcript (v : list Message) (c : Component) : Component :=
  {| isRecording := isRecording c; transcript := v; error := error c; status := status c;
     accounts := accounts c; apiKeySelected := apiKeySelected c;
     transactions := transactions c; viewingHistory := viewingHistory c;
     sessionPromiseRef := sessionPromiseRef c;
     inputAudioContextRef := inputAudioContextRef c;
     outputAudioContextRef := outputAudioContextRef c;
     mediaStreamRef := mediaStreamRef c; scriptProcessorRef := scriptProcessorRef c;
     mediaStreamSourceRef := mediaStreamSourceRef c;
     currentInputTranscriptionRef := currentInputTranscriptionRef c;
     currentOutputTranscriptionRef := currentOutputTranscriptionRef c |}.

Definition setError (v : option string) (c : Component) : Component :=
  {| isRecording := isRecording c; transcript := transcript c; error := v;
     status := status c; accounts := accounts c; apiKeySelected := apiKeySelected c;
     transactions := transactions c; viewingHistory := viewingHistory c;
     sessionPromiseRef := sessionPromiseRef c;
     inputAudioContextRef := inputAudioContextRef c;
     outputAudioContextRef := outputAudioContextRef c;
     mediaStreamRef := mediaStreamRef c; scriptProcessorRef := scriptProcessorRef c;
     mediaStreamSourceRef := mediaStreamSourceRef c;
     currentInputTranscriptionRef := currentInputTranscriptionRef c;
     currentOutputTranscriptionRef := currentOutputTranscriptionRef c |}.

Definition setStatus (v : Status) (c : Component) : Component :=
  {| isRecording := isRecording c; transcript := transcript c; error := error c;
     status := v; accounts := accounts c; apiKeySelected := apiKeySelected c;
     transactions := transactions c; viewingHistory := viewingHistory c;
     sessionPromiseRef := sessionPromiseRef c;
     inputAudioContextRef := inputAudioContextRef c;
     outputAudioContextRef := outputAudioContextRef c;
     mediaStreamRef := mediaStreamRef c; scriptProcessorRef := scriptProcessorRef c;
     mediaStreamSourceRef := mediaStreamSourceRef c;
     currentInputTranscriptionRef := currentInputTranscriptionRef c;
     currentOutputTranscriptionRef := currentOutputTranscriptionRef c |}.

Definition put_accounts (v : Accounts) (c : Component) : Component :=
  {| isRecording := isRecording c; transcript := transcript c; error := error c;
     status := status c; accounts := v; apiKeySelected := apiKeySelected c;
     transactions := transactions c; viewingHistory := viewingHistory c;
     sessionPromiseRef := sessionPromiseRef c;
     inputAudioContextRef := inputAudioContextRef c;
     outputAudioContextRef := outputAudioContextRef c;
     mediaStreamRef := mediaStreamRef c; scriptProcessorRef := scriptProcessorRef c;
     mediaStreamSourceRef := mediaStreamSourceRef c;
     currentInputTranscriptionRef := currentInputTranscriptionRef c;
     currentOutputTranscriptionRef := currentOutputTranscriptionRef c |}.

Definition setTransactions (v : list Backend.MockTransaction) (c : Component) : Component :=
  {| isRecording := isRecording c; transcript := transcript c; error := error c;
     status := status c; accounts := accounts c; apiKeySelected := apiKeySelected c;
     transactions := v; viewingHistory := viewingHistory c;
     sessionPromiseRef := sessionPromiseRef c;
     inputAudioContextRef := inputAudioContextRef c;
     outputAudioContextRef := outputAudioContextRef c;
     mediaStreamRef := mediaStreamRef c; scriptProcessorRef := scriptProcessorRef c;
     mediaStreamSourceRef := mediaStreamSourceRef c;
     currentInputTranscriptionRef := currentInputTranscriptionRef c;
     currentOutputTranscriptionRef := currentOutputTranscriptionRef c |}.

Definition setViewingHistory (v : option string) (c : Component) : Component :=
  {| isRecording := isRecording c; transcript := transcript c; error := error c;
     status := status c; accounts := accounts c; apiKeySelected := apiKeySelected c;
     transactions := transactions c; viewingHistory := v;
     sessionPromiseRef := sessionPromiseRef c;
     inputAudioContextRef := inputAudioContextRef c;
     outputAudioContextRef := outputAudioContextRef c;
     mediaStreamRef := mediaStreamRef c; scriptProcessorRef := scriptProcessorRef c;
     mediaStreamSourceRef := mediaStreamSourceRef c;
     currentInputTranscriptionRef := currentInputTranscriptionRef c;
     currentOutputTranscriptionRef := currentOutputTranscriptionRef c |}.

Definition set_sessionPromiseRef (v : option SessionPromise) (c : Component) : Component :=
  {| isRecording := isRecording c; transcript := transcript c; error := error c;
     status := status c; accounts := accounts c; apiKeySelected := apiKeySelected c;
     transactions := transactions c; viewingHistory := viewingHistory c;
     sessionPromiseRef := v; inputAudioContextRef := inputAudioContextRef c;
     outputAudioContextRef := outputAudioContextRef c;
     mediaStreamRef := mediaStreamRef c; scriptProcessorRef := scriptProcessorRef c;
     mediaStreamSourceRef := mediaStreamSourceRef c;
     currentInputTranscriptionRef := currentInputTranscriptionRef c;
     currentOutputTranscriptionRef := currentOutputTranscriptionRef c |}.

Definition set_inputAudioContextRef (v : option AudioContext) (c : Component) : Component :=
  {| isRecording := isRecording c; transcript := transcript c; error := error c;
     status := status c; accounts := accounts c; apiKeySelected := apiKeySelected c;
     transactions := transactions c; viewingHistory := viewingHistory c;
     sessionPromiseRef := sessionPromiseRef c; inputAudioContextRef := v;
     outputAudioContextRef := outputAudioContextRef c;
     mediaStreamRef := mediaStreamRef c; scriptProcessorRef := scriptProcessorRef c;
     mediaStreamSourceRef := mediaStreamSourceRef c;
     currentInputTranscriptionRef := currentInputTranscriptionRef c;
     currentOutputTranscriptionRef := currentOutputTranscriptionRef c |}.

Definition set_outputAudioContextRef (v : option AudioContext) (c : Component) : Component :=
  {| isRecording := isRecording c; transcript := transcript c; error := error c;
     status := status c; accounts := accounts c; apiKeySelected := apiKeySelected c;
     transactions := transactions c; viewingHistory := viewingHistory c;
     sessionPromiseRef := sessionPromiseRef c;
     inputAudioContextRef := inputAudioContextRef c; outputAudioContextRef := v;
     mediaStreamRef := mediaStreamRef c; scriptProcessorRef := scriptProcessorRef c;
     mediaStreamSourceRef := mediaStreamSourceRef c;
     currentInputTranscriptionRef := currentInputTranscriptionRef c;
     currentOutputTranscriptionRef := currentOutputTranscriptionRef c |}.

Definition set_mediaStreamRef (v : option MediaStream) (c : Component) : Component :=
  {| isRecording := isRecording c; transcript := transcript c; error := error c;
     status := status c; accounts := accounts c; apiKeySelected := apiKeySelected c;
     transactions := transactions c; viewingHistory := viewingHistory c;
     sessionPromiseRef := sessionPromiseRef c;
     inputAudioContextRef := inputAudioContextRef c;
     outputAudioContextRef := outputAudioContextRef c; mediaStreamRef := v;
     scriptProcessorRef := scriptProcessorRef c;
     mediaStreamSourceRef := mediaStreamSourceRef c;
     currentInputTranscriptionRef := currentInputTranscriptionRef c;
     currentOutputTranscriptionRef := currentOutputTranscriptionRef c |}.

Definition set_scriptProcessorRef (v : option ScriptProcessorNode) (c : Component) : Component :=
  {| isRecording := isRecording c; transcript := transcript c; error := error c;
     status := status c; accounts := accounts c; apiKeySelected := apiKeySelected c;
     transactions := transactions c; viewingHistory := viewingHistory c;
     sessionPromiseRef := sessionPromiseRef c;
     inputAudioContextRef := inputAudioContextRef c;
     outputAudioContextRef := outputAudioContextRef c;
     mediaStreamRef := mediaStreamRef c; scriptProcessorRef := v;
     mediaStreamSourceRef := mediaStreamSourceRef c;
     currentInputTranscriptionRef := currentInputTranscriptionRef c;
     currentOutputTranscriptionRef := currentOutputTranscriptionRef c |}.

Definition set_mediaStreamSourceRef (v : option MediaStreamAudioSourceNode) (c : Component) : Component :=
  {| isRecording := isRecording c; transcript := transcript c; error := error c;
     status := status c; accounts := accounts c; apiKeySelected := apiKeySelected c;
     transactions := transactions c; viewingHistory := viewingHistory c;
     sessionPromiseRef := sessionPromiseRef c;
     inputAudioContextRef := inputAudioContextRef c;
     outputAudioContextRef := outputAudioContextRef c;
     mediaStreamRef := mediaStreamRef c; scriptProcessorRef := scriptProcessorRef c;
     mediaStreamSourceRef := v;
     currentInputTranscriptionRef := currentInputTranscriptionRef c;
     currentOutputTranscriptionRef := currentOutputTranscriptionRef c |}.

Definition set_currentInputTranscriptionRef (v : string) (c : Component) : Component :=
  {| isRecording := isRecording c; transcript := transcript c; error := error c;
     status := status c; accounts := accounts c; apiKeySelected := apiKeySelected c;
     transactions := transactions c; viewingHistory := viewingHistory c;
     sessionPromiseRef := sessionPromiseRef c;
     inputAudioContextRef := inputAudioContextRef c;
     outputAudioContextRef := outputAudioContextRef c;
     mediaStreamRef := mediaStreamRef c; scriptProcessorRef := scriptProcessorRef c;
     mediaStreamSourceRef := mediaStreamSourceRef c; currentInputTranscriptionRef := v;
     currentOutputTranscriptionRef := currentOutputTranscriptionRef c |}.

Definition set_currentOutputTranscriptionRef (v : string) (c : Component) : Component :=
  {| isRecording := isRecording c; transcript := transcript c; error := error c;
     status := status c; accounts := accounts c; apiKeySelected := apiKeySelected c;
     transactions := transactions c; viewingHistory := viewingHistory c;
     sessionPromiseRef := sessionPromiseRef c;
     inputAudioContextRef := inputAudioContextRef c;
     outputAudioContextRef := outputAudioContextRef c;
     mediaStreamRef := mediaStreamRef c; scriptProcessorRef := scriptProcessorRef c;
     mediaStreamSourceRef := mediaStreamSourceRef c;
     currentInputTranscriptionRef := currentInputTranscriptionRef c;
     currentOutputTranscriptionRef := v |}.

(** State setters called with an updater function, for an updater that
    reads nothing but its argument: when React calls it makes no
    difference to the state it leaves. *)

Definition setAccounts (updater : Accounts -> Accounts) (c : Component) : Component :=
  put_accounts (updater (accounts c)) c.

Definition setTranscript (updater : list Message -> list Message) (c : Component)
  : Component :=
  put_transcript (updater (transcript c)) c.

(** The object handed back to the model as the result of a function call,
    one constructor per object literal of [handleToolCall]. *)
Inductive ToolResult : Type :=
| balance_result (balance : Z)
    (* { balance } *)
| error_result (error : string)
    (* { error } *)
| insufficient_result (error : string) (currentBalance : Z)
    (* { error, currentBalance } *)
| transfer_result (success : bool) (fromAccount toAccount : string)
    (amount newFromBalance : Z)
    (* { success, fromAccount, toAccount, amount, newFromBalance } *)
| history_result (success : bool) (transactionsRetrieved : nat).
    (* { success, transactionsRetrieved } *)

(** The [error] property of a result, when it has one. *)
Definition error_of (result : ToolResult) : option string :=
  match result with
  | error_result error | insufficient_result error _ => Some error
  | _ => None
  end.

(** The [success] property of a result, when it has one. *)
Definition success_of (result : ToolResult) : option bool :=
  match result with
  | transfer_result success _ _ _ _ | history_result success _ => Some success
  | _ => None
  end.

Record FunctionResponse : Type := {
  id : string;
  name : string;
  response : ToolResult
}.

(** Calls on objects that live outside the component. *)
Inductive Effect : Type :=
| sendToolResponse (sessionPromise : SessionPromise) (functionResponses : FunctionResponse)
| close_session (sessionPromise : SessionPromise)
| stop_tracks (stream : MediaStream)
| disconnect_processor (node : ScriptProcessorNode)
| disconnect_source (node : MediaStreamAudioSourceNode)
| close_context (context : AudioContext)
| console_error (label : string).

(** What running a callback leaves behind: the component, the calls made
    on outside objects, and the exception that ended it, if any. *)
Record Outcome : Type := {
  component : Component;
  effects : list Effect;
  thrown : option Exn
}.

Section Callbacks.
Variable entropy : Backend.Entropy.

(** The [switch (fc.name)] of [handleToolCall]: the state setters it
    calls and the [result] it assigns. [accounts] is the value the
    callback closed over; the updater given to [setAccounts] reads the
    state through its own argument [prev]. *)
Definition switch (accounts : Accounts) (c : Component) (fc : GenAI.FunctionCall)
  : Completion (Component * ToolResult) :=
  let args := GenAI.args fc in
  if (GenAI.name fc =? "getAccountBalance")%string then
    let accountType := toLowerCase (GenAI.accountType args) in
    match keyof accountType with
    | Some key => Normal (c, balance_result (get accounts key))
    | None =>
        Normal (c, error_result ("Account type '" ++ accountType ++ "' not found."))
    end
  else if (GenAI.name fc =? "transferFunds")%string then
    let amount := GenAI.amount args in
    let from := toLowerCase (GenAI.fromAccount args) in
    let to := toLowerCase (GenAI.toAccount args) in
    match keyof from, keyof to with
    | Some from_key, Some to_key =>
        if get accounts from_key <? amount then
          Normal (c, insufficient_result "Insufficient funds." (get accounts from_key))
        else
          Normal
            (setAccounts
               (fun prev =>
                  assign to_key (get prev to_key + amount)
                    (assign from_key (get prev from_key - amount) prev))
               c,
             transfer_result true from to amount (get accounts from_key - amount))
    | _, _ => Normal (c, error_result "Invalid account specified.")
    end
  else if (GenAI.name fc =? "getTransactionHistory")%string then
    let historyAccount := GenAI.accountType args in
    match Backend.getMockTransactionHistory entropy (toLowerCase historyAccount)
            (GenAI.limit args) with
    | Throw e => Throw e
    | Normal history =>
        Normal
          (setViewingHistory (Some historyAccount) (setTransactions history c),
           history_result true (List.length history))
    end
  else
    Normal (c, error_result ("Unknown function call: " ++ GenAI.name fc)).

(** The loop [for (const fc of toolCall.functionCalls)]. An exception
    leaves the loop; the responses queued before it stay queued. *)
Fixpoint for_of (sessionPromise : SessionPromise) (accounts : Accounts)
  (c : Component) (functionCalls : list GenAI.FunctionCall) : Outcome :=
  match functionCalls with
  | [] => {| component := c; effects := []; thrown := None |}
  | fc :: rest =>
      match switch accounts c fc with
      | Throw e => {| component := c; effects := []; thrown := Some e |}
      | Normal (c', result) =>
          let sent :=
            sendToolResponse sessionPromise
              {| id := GenAI.id fc; name := GenAI.name fc; response := result |} in
          let after := for_of sessionPromise accounts c' rest in
          {| component := component after;
             effects := sent :: effects after;
             thrown := thrown after |}
      end
  end.

Definition handleToolCall (accounts : Accounts) (c : Component)
  (toolCall : list GenAI.FunctionCall) : Outcome :=
  match sessionPromiseRef c with
  | None => {| component := c; effects := []; thrown := None |}
  | Some sessionPromise => for_of sessionPromise accounts c toolCall
  end.

(** The body of the updaters that [handleMessage] gives to
    [setTranscript]: [current] is what the updater reads from the
    accumulator ref. *)
Definition replace_last (who : Sender) (current : string) (prev : list Message)
  : list Message :=
  match nth_error prev (List.length prev - 1) with
  | Some last =>
      if Sender_eqb (sender last) who then
        (slice0 prev (-1)
           ++ [ {| Types.id := Types.id last; sender := sender last; text := current |} ])%list
      else prev
  | None => prev
  end.

(** A function that [handleMessage] gives to [setTranscript]. React queues
    it and calls it while rendering, once the handler has returned; what the
    function reads from a ref it reads then. [refs] is the component at
    that moment. *)
Definition Updater : Type := Component -> list Message -> list Message.

Definition from_output : Updater :=
  fun refs => replace_last Agent (currentOutputTranscriptionRef refs).

Definition from_input : Updater :=
  fun refs => replace_last User (currentInputTranscriptionRef refs).

(** The transcription branches of [handleMessage] on a [serverContent]:
    the assignments to the two accumulators, and the updaters given to
    [setTranscript], in the order of the calls. *)
Definition transcription_branches (content : GenAI.ServerContent) (c : Component)
  : Component * list Updater :=
  let (c, queued) :=
    match GenAI.outputTranscription content with
    | Some text =>
        (set_currentOutputTranscriptionRef (currentOutputTranscriptionRef c ++ text) c,
         [from_output])
    | None => (c, [])
    end in
  let (c, queued) :=
    match GenAI.inputTranscription content with
    | Some text =>
        (set_currentInputTranscriptionRef (currentInputTranscriptionRef c ++ text) c,
         (queued ++ [from_input])%list)
    | None => (c, queued)
    end in
  if GenAI.turnComplete content then
    let queued :=
      if truthy (trim (currentInputTranscriptionRef c))
      then (queued ++ [from_input])%list
      else queued in
    let queued :=
      if truthy (trim (currentOutputTranscriptionRef c))
      then (queued ++ [from_output])%list
      else queued in
    let c := set_currentInputTranscriptionRef "" c in
    let c := set_currentOutputTranscriptionRef "" c in
    (c, queued)
  else (c, queued).

(** The render that follows: the queued updaters are called one after the
    other, each on the transcript the one before it returned. *)
Definition render (queued : list Updater) (c : Component) : Component :=
  fold_left (fun c updater => setTranscript (updater c) c) queued c.

(** The transcription branches, and the render they cause. *)
Definition transcriptions (content : GenAI.ServerContent) (c : Component) : Component :=
  let (c, queued) := transcription_branches content c in
  render queued c.

(** [handleMessage], without the audio playback branches: they touch
    only [nextStartTimeRef] and [audioSourcesRef], which no other
    callback modelled here reads. *)
Definition handleMessage (accounts : Accounts) (c : Component)
  (message : GenAI.LiveServerMessage) : Outcome :=
  let called :=
    match GenAI.toolCall message with
    | Some toolCall => handleToolCall accounts c toolCall
    | None => {| component := c; effects := []; thrown := None |}
    end in
  match thrown called, GenAI.serverContent message with
  | None, Some content =>
      {| component := transcriptions content (component called);
         effects := effects called;
         thrown := None |}
  | _, _ => called
  end.

End Callbacks.

(** What the browser and the SDK answer to [startConversation]. *)
Record Attempt : Type := {
  getUserMedia : Completion MediaStream;
  new_inputAudioContext : Completion AudioContext;
  new_outputAudioContext : Completion AudioContext;
  live_connect : Completion SessionPromise
}.

(** The [try] block of [startConversation]: the component as the block
    leaves it, and the exception that left it early, if any.
    [live_connect] stands for [new GoogleGenAI] followed by
    [ai.live.connect]; the promise it returns is stored, not awaited. *)
Definition try_block (attempt : Attempt) (c : Component) : Component * option Exn :=
  match getUserMedia attempt with
  | Throw e => (c, Some e)
  | Normal stream =>
      let c := set_mediaStreamRef (Some stream) c in
      match new_inputAudioContext attempt with
      | Throw e => (c, Some e)
      | Normal context =>
          let c := set_inputAudioContextRef (Some context) c in
          match new_outputAudioContext attempt with
          | Throw e => (c, Some e)
          | Normal context =>
              let c := set_outputAudioContextRef (Some context) c in
              match live_connect attempt with
              | Throw e => (c, Some e)
              | Normal promise => (set_sessionPromiseRef (Some promise) c, None)
              end
          end
      end
  end.

Definition microphone_message : string :=
  "Could not access the microphone. Please grant permission and try again.".

(** [startConversation], from the call to its end, when nothing else runs
    while it waits for the microphone. *)
Definition startConversation (attempt : Attempt) (c : Component)
  : Component * list Effect :=
  let c := setError None c in
  let c := setStatus connecting c in
  let c := put_transcript [] c in
  let c := setTransactions [] c in
  let c := setViewingHistory None c in
  match try_block attempt c with
  | (c, None) => (c, [])
  | (c, Some err) =>
      let c := setError (Some microphone_message) c in
      let c := setStatus idle c in
      (c, [console_error "Failed to start conversation:"])
  end.

(** [startConversation] is an async function: it runs up to
    [await navigator.mediaDevices.getUserMedia] (l.273), returns to the
    browser, and goes on when the promise has settled. [before_await] is
    what it has done by then, [after_await] what it does from there. *)
Definition before_await (c : Component) : Component :=
  let c := setError None c in
  let c := setStatus connecting c in
  let c := put_transcript [] c in
  let c := setTransactions [] c in
  setViewingHistory None c.

Definition after_await (attempt : Attempt) (c : Component) : Component * list Effect :=
  match try_block attempt c with
  | (c, None) => (c, [])
  | (c, Some err) =>
      let c := setError (Some microphone_message) c in
      let c := setStatus idle c in
      (c, [console_error "Failed to start conversation:"])
  end.

Definition if_current {A : Type} (ref : option A) (call : A -> Effect) : list Effect :=
  match ref with
  | Some current => [call current]
  | None => []
  end.

(** [stopConversation]. The effects are listed in the order in which the
    outside objects receive the calls: [session.close()] sits in a reaction
    registered on the session promise (l.349), which runs once
    [stopConversation] has returned, so after the synchronous calls on the
    stream, the nodes and the contexts. *)
Definition stopConversation (c : Component) : Component * list Effect :=
  let c := setIsRecording false c in
  let c := setStatus idle c in
  let closing := if_current (sessionPromiseRef c) close_session in
  let c := set_sessionPromiseRef None c in
  let stopping := if_current (mediaStreamRef c) stop_tracks in
  let c := set_mediaStreamRef None c in
  let processor := if_current (scriptProcessorRef c) disconnect_processor in
  let c := set_scriptProcessorRef None c in
  let source := if_current (mediaStreamSourceRef c) disconnect_source in
  let c := set_mediaStreamSourceRef None c in
  let input := if_current (inputAudioContextRef c) close_context in
  let output := if_current (outputAudioContextRef c) close_context in
  let c := set_inputAudioContextRef None c in
  let c := set_outputAudioContextRef None c in
  (c, (stopping ++ processor ++ source ++ input ++ output ++ closing)%list).

(** The component as [useState] and [useRef] initialise it. *)
Definition initial : Component :=
  {| isRecording := false; transcript := []; error := None; status := idle;
     accounts := {| checking := 1000; savings := 5000 |}; apiKeySelected := false;
     transactions := []; viewingHistory := None; sessionPromiseRef := None;
     inputAudioContextRef := None; outputAudioContextRef := None;
     mediaStreamRef := None; scriptProcessorRef := None; mediaStreamSourceRef := None;
     currentInputTranscriptionRef := ""; currentOutputTranscriptionRef := "" |}.

End Conversation.

(** ** Vocabulary of the statements *)

Module Bank.
Import Conversation.

(** The list that [mockData] holds under a key of [Accounts]. *)
Definition stored (entropy : Backend.Entropy) (key : Key) : list Backend.MockTransaction :=
  match key with
  | Backend.Checking => Backend.checking (Backend.mockData entropy)
  | Backend.Savings => Backend.savings (Backend.mockData entropy)
  end.

(** The second argument of the [generateRandomTransactions] call that
    fills a key of [mockData]. *)
Definition stored_count (key : Key) : Z :=
  match key with
  | Backend.Checking => 20
  | Backend.Savings => 15
  end.

Definition total (accounts : Accounts) : Z := checking accounts + savings accounts.



(** The response that the loop of [handleToolCall] queues for [fc]. *)
Definition response_to (sessionPromise : SessionPromise) (fc : GenAI.FunctionCall)
  (result : ToolResult) : Effect :=
  sendToolResponse sessionPromise
    {| id := GenAI.id fc; name := GenAI.name fc; response := result |}.


(** The history shown after a call with limit [limit] is the first
    [min(limit, stored count)] transactions stored under [key]. *)
Definition shows_first (entropy : Backend.Entropy) (key : Key) (limit : Z)
  (c : Component) : Prop :=
  transactions c
  = firstn (Z.to_nat (Z.min limit (stored_count key))) (stored entropy key).

(** A component in a session, and calls of the three tools, for closed
    examples. *)
Definition in_session : Component := set_sessionPromiseRef (Some 7%nat) initial.

Definition transfer (amount : Z) (fromAccount toAccount : string) : GenAI.FunctionCall :=
  {| GenAI.id := "call-1"; GenAI.name := "transferFunds";
     GenAI.args := {| GenAI.accountType := ""; GenAI.amount := amount;
                      GenAI.fromAccount := fromAccount; GenAI.toAccount := toAccount;
                      GenAI.limit := None |} |}.

Definition lookup (name accountType : string) (limit : option Z) : GenAI.FunctionCall :=
  {| GenAI.id := "call-2"; GenAI.name := name;
     GenAI.args := {| GenAI.accountType := accountType; GenAI.amount := 0;
                      GenAI.fromAccount := ""; GenAI.toAccount := "";
                      GenAI.limit := limit |} |}.

End Bank.

Module Transcript.
Import Types.

(** The sender of the last entry of a transcript, if it has one. *)
Fixpoint last_sender (transcript : list Message) : option Sender :=
  match transcript with
  | [] => None
  | [entry] => Some (sender entry)
  | _ :: rest => last_sender rest
  end.

(** An entry with its text replaced. *)
Definition with_text (entry : Message) (text : string) : Message :=
  {| id := id entry; sender := sender entry; text := text |}.

(** A message that carries only a [serverContent]. *)
Definition content_only (content : GenAI.ServerContent) : GenAI.LiveServerMessage :=
  {| GenAI.toolCall := None; GenAI.serverContent := Some content |}.

Definition chunk (output input : option string) (turnComplete : bool)
  : GenAI.ServerContent :=
  {| GenAI.outputTranscription := output; GenAI.inputTranscription := input;
     GenAI.turnComplete := turnComplete |}.

(** The component after [onopen] pushed the two empty entries, with some
    text already accumulated. *)
Definition listening : Conversation.Component :=
  Conversation.set_currentOutputTranscriptionRef "Hel"
    (Conversation.put_transcript
       [ {| id := "1"; sender := User; text := "" |};
         {| id := "2"; sender := Agent; text := "Hel" |} ]
       (Conversation.set_sessionPromiseRef (Some 7%nat) Conversation.initial)).

End Transcript.

(** ** The callback of a running session, and the numbers of the source *)

Module Closure.
Import Conversation.

(** The [onmessage] callback of a session that was started from the
    component [started]: [startConversation] hands its [handleMessage] to
    [ai.live.connect] (l.313), and the session calls that one function for
    every message. The [accounts] it closed over are those of the render
    whose button was clicked, whatever the state has become since. *)
Definition onmessage (entropy : Backend.Entropy) (started c : Component)
  (message : GenAI.LiveServerMessage) : Outcome :=
  handleMessage entropy (accounts started) c message.

(** A message that carries only a tool call. *)
Definition tool_call (functionCalls : list GenAI.FunctionCall) : GenAI.LiveServerMessage :=
  {| GenAI.toolCall := Some functionCalls; GenAI.serverContent := None |}.

End Closure.

Module Numbers.
Import Conversation.


(** The sum of the magnitudes of the amounts of the transfers of a tool
    call. *)
Definition moved (toolCall : list GenAI.FunctionCall) : Z :=
  fold_right Z.add 0
    (map (fun fc =>
            if (GenAI.name fc =? "transferFunds")%string
            then Z.abs (GenAI.amount (GenAI.args fc))
            else 0)
       toolCall).

(** The largest magnitude up to which every whole number is a double: the
    sum or difference of two whole numbers is computed exactly by the
    doubles of the source when operands and result are within it. *)
Definition exact_below : Z := 2 ^ 53.

End Numbers.

(** The update of a transfer on the numbers of the source, IEEE doubles. *)
Module Doubles.

Record Accounts : Type := {
  checking : float;
  savings : float
}.

Definition get (accounts : Accounts) (key : Conversation.Key) : float :=
  match key with
  | Backend.Checking => checking accounts
  | Backend.Savings => savings accounts
  end.

Definition assign (key : Conversation.Key) (value : float) (accounts : Accounts) : Accounts :=
  match key with
  | Backend.Checking => {| checking := value; savings := savings accounts |}
  | Backend.Savings => {| checking := checking accounts; savings := value |}
  end.

(** The function that a transfer gives to [setAccounts] (l.155-159). *)
Definition transfer_update (from_key to_key : Conversation.Key) (amount : float)
  (prev : Accounts) : Accounts :=
  assign to_key (get prev to_key + amount)%float
    (assign from_key (get prev from_key - amount)%float prev).

Definition total (accounts : Accounts) : float :=
  (checking accounts + savings accounts)%float.

(** The accounts as [useState] initialises them. *)
Definition initial : Accounts := {| checking := 1000; savings := 5000 |}.


End Doubles.

(** ** The callbacks of the session and the handlers of the page *)

Module Session.
Import JS Types Conversation.

Definition setApiKeySelected (v : bool) (c : Component) : Component :=
  {| Conversation.isRecording := isRecording c; Conversation.transcript := transcript c;
     Conversation.error := error c; Conversation.status := status c;
     Conversation.accounts := accounts c; Conversation.apiKeySelected := v;
     Conversation.transactions := transactions c;
     Conversation.viewingHistory := viewingHistory c;
     Conversation.sessionPromiseRef := sessionPromiseRef c;
     Conversation.inputAudioContextRef := inputAudioContextRef c;
     Conversation.outputAudioContextRef := outputAudioContextRef c;
     Conversation.mediaStreamRef := mediaStreamRef c;
     Conversation.scriptProcessorRef := scriptProcessorRef c;
     Conversation.mediaStreamSourceRef := mediaStreamSourceRef c;
     Conversation.currentInputTranscriptionRef := currentInputTranscriptionRef c;
     Conversation.currentOutputTranscriptionRef := currentOutputTranscriptionRef c |}.

(** [String.prototype.includes]. *)
Fixpoint includes (s search : string) : bool :=
  String.prefix search s
  || match s with
     | EmptyString => false
     | String _ rest => includes rest search
     end.

(** The samples of one [audioprocess] event, as [createPcmBlob] packs them;
    known by identity only. *)
Definition PcmBlob : Type := nat.

(** Calls on outside objects: those of [Conversation.Effect], and the ones
    that only the callbacks below make. *)
Inductive Call : Type :=
| effect (e : Effect)
| console_log (text : string)
| connect_source (source : MediaStreamAudioSourceNode) (processor : ScriptProcessorNode)
| connect_destination (processor : ScriptProcessorNode) (context : AudioContext)
| sendRealtimeInput (sessionPromise : SessionPromise) (media : PcmBlob).

(** What the browser hands to [onopen]: the two nodes it creates, and the
    two readings of [Date.now()]. *)
Record Opening : Type := {
  createMediaStreamSource : MediaStreamAudioSourceNode;
  createScriptProcessor : ScriptProcessorNode;
  now : Z;
  now' : Z
}.

(** [onopen]. The non-null assertions are erased by the compiler: with a
    null audio context or a null media stream the first statement throws a
    TypeError and nothing is assigned. *)
Definition onopen (opening : Opening) (c : Component)
  : Component * list Call * option Exn :=
  match inputAudioContextRef c, mediaStreamRef c with
  | Some context, Some stream =>
      let source := createMediaStreamSource opening in
      let c := set_mediaStreamSourceRef (Some source) c in
      let scriptProcessor := createScriptProcessor opening in
      let c := set_scriptProcessorRef (Some scriptProcessor) c in
      let c := setStatus connected c in
      let c := setIsRecording true c in
      let c :=
        setTranscript
          (fun prev =>
             prev ++ [ {| Types.id := string_of_Z (now opening); sender := User;
                          text := "" |} ])%list
          c in
      let c :=
        setTranscript
          (fun prev =>
             prev ++ [ {| Types.id := string_of_Z (now' opening + 1); sender := Agent;
                          text := "" |} ])%list
          c in
      (c, [connect_source source scriptProcessor;
           connect_destination scriptProcessor context], None)
  | None, _ =>
      (c, [], Some (TypeError "Cannot read properties of null"))
  | Some _, None =>
      (c, [], Some (TypeError "parameter 1 is not of type 'MediaStream'"))
  end.

(** [scriptProcessor.onaudioprocess]: the ref is read when the event
    fires. *)
Definition onaudioprocess (pcmBlob : PcmBlob) (c : Component) : list Call :=
  match sessionPromiseRef c with
  | Some sessionPromise => [sendRealtimeInput sessionPromise pcmBlob]
  | None => []
  end.

Definition api_key_message : string :=
  "There was an issue with the API key. Please re-select your key and try again.".

(** [onerror], called with [e.message]. *)
Definition onerror (message : string) (c : Component) : Component * list Call :=
  let c :=
    if includes (toLowerCase message) "network error"
       || includes (toLowerCase message) "not found"
    then setApiKeySelected false (setError (Some api_key_message) c)
    else setError (Some ("Connection error: " ++ message ++ ". Please try again.")) c in
  let (c, effects) := stopConversation c in
  (c, (effect (console_error "API Error:") :: map effect effects)%list).

(** [onclose]. *)
Definition onclose (c : Component) : Component * list Call :=
  let (c, effects) := stopConversation c in
  (c, (console_log "Connection closed." :: map effect effects)%list).

(** The cleanup of the last [useEffect]: [isRecording] is the value of the
    render that registered the effect. *)
Definition cleanup (isRecording : bool) (c : Component) : Component * list Call :=
  if isRecording then
    let (c, effects) := stopConversation c in (c, map effect effects)
  else (c, []).

(** [checkApiKey]: [aistudio] is what [window.aistudio.hasSelectedApiKey()]
    settles to, or [None] outside AI Studio. A rejection is not caught and
    sets nothing. *)
Definition checkApiKey (aistudio : option (Completion bool)) (c : Component) : Component :=
  match aistudio with
  | Some (Normal selected) => setApiKeySelected selected c
  | Some (Throw _) => c
  | None => setApiKeySelected true c
  end.

(** [handleSelectApiKey]: [aistudio] is what [window.aistudio.openSelectKey()]
    settles to, or [None] outside AI Studio. *)
Definition handleSelectApiKey (aistudio : option (Completion unit)) (c : Component)
  : Component * list Call :=
  match aistudio with
  | Some (Normal _) => (setError None (setApiKeySelected true c), [])
  | Some (Throw _) =>
      (setError (Some "Could not open API key selection. Please try again.") c,
       [effect (console_error "Failed to open API key selection:")])
  | None => (c, [])
  end.

(** The text of [getButtonContent]. *)
Definition getButtonContent (status : Status) : string :=
  match status with
  | idle => " Start Session"
  | connecting => " Connecting..."
  | connected => " End Session"
  end.

(** What the page offers to click, as the last render drew it: the key
    selection button while no key is selected, else the session button,
    disabled while connecting. *)
Inductive Button : Type :=
| select_api_key
| session_button (label : string) (disabled : bool) (stops : bool).

Definition rendered_button (c : Component) : Button :=
  if apiKeySelected c
  then session_button (getButtonContent (status c))
         (match status c with connecting => true | _ => false end)
         (isRecording c)
  else select_api_key.

(** What can happen to a mounted component. A click is a click on the
    button that is drawn; [settled] is the settling of the [getUserMedia]
    that a call of [startConversation] is waiting for. *)
Inductive Event : Type :=
| mounted (aistudio : option (Completion bool))
| clicked (aistudio : option (Completion unit))
| settled (attempt : Attempt)
| opened (opening : Opening)
| errored (message : string)
| closed
| received (accounts : Accounts) (message : GenAI.LiveServerMessage)
| cleaned (isRecording : bool).

(** The mounted component, and the number of calls of [startConversation]
    that are suspended at their [await]. *)
Record Page : Type := {
  shown : Component;
  awaiting : nat
}.

Definition initial_page : Page := {| shown := initial; awaiting := 0 |}.

Section Events.
Variable entropy : Backend.Entropy.

(** The page after one event. A click goes to the handler of the button
    that is drawn; a click that starts a conversation runs
    [startConversation] up to its [await], and the callbacks of an earlier
    session, or another click, may run before it goes on. *)
Definition step (page : Page) (event : Event) : Page :=
  let c := shown page in
  let show c' := {| shown := c'; awaiting := awaiting page |} in
  match event with
  | mounted aistudio => show (checkApiKey aistudio c)
  | clicked aistudio =>
      match rendered_button c with
      | select_api_key => show (fst (handleSelectApiKey aistudio c))
      | session_button _ true _ => page
      | session_button _ false true => show (fst (stopConversation c))
      | session_button _ false false =>
          {| shown := before_await c; awaiting := S (awaiting page) |}
      end
  | settled attempt =>
      match awaiting page with
      | O => page
      | S others => {| shown := fst (after_await attempt c); awaiting := others |}
      end
  | opened opening => show (fst (fst (onopen opening c)))
  | errored message => show (fst (onerror message c))
  | closed => show (fst (onclose c))
  | received accounts message => show (component (handleMessage entropy accounts c message))
  | cleaned isRecording => show (fst (cleanup isRecording c))
  end.

Definition run (page : Page) (events : list Event) : Page :=
  fold_left step events page.

(** No event comes between a click that starts a conversation and the
    settling of its [getUserMedia]. *)
Fixpoint undisturbed (page : Page) (events : list Event) : bool :=
  match events with
  | [] => true
  | event :: rest =>
      match awaiting page, event with
      | S _, settled _ => undisturbed (step page event) rest
      | S _, _ => false
      | O, _ => undisturbed (step page event) rest
      end
  end.

(** The messages of a list, handled one after the other by the same
    callback. *)
Definition handleMessages (accounts : Accounts) (c : Component)
  (messages : list GenAI.LiveServerMessage) : Component :=
  fold_left (fun c message => component (handleMessage entropy accounts c message))
    messages c.

End Events.

End Session.

(** ** The TransactionHistory component *)

Module TransactionHistory.
Import JS.

(** [Number.prototype.toFixed(2)], for numbers below 10^21: the sign, then
    the nearest number of hundredths (the larger of two nearest ones), as
    integer part, point and two digits. *)
Definition hundredths (x : Q) : Z := Qfloor (x * 100 + (1 # 2)).

Definition two_digits (n : Z) : string :=
  if n <? 10 then "0" ++ string_of_Z n else string_of_Z n.

Definition toFixed (x : Q) : string :=
  let sign := if Qle_bool 0 x then "" else "-" in
  let n := hundredths (if Qle_bool 0 x then x else - x) in
  sign ++ string_of_Z (n / 100) ++ "." ++ two_digits (n mod 100).

(** One [<li>]: its key, which of the two arrows it draws, the two lines
    of text, and the signed amount. *)
Record Row : Type := {
  key : string;
  arrow_up_right : bool;
  description : string;
  date : Z;
  amount : string
}.

Definition row (tx : Backend.MockTransaction) : Row :=
  let credit :=
    match Backend.type tx with Backend.credit => true | Backend.debit => false end in
  {| key := Backend.id tx;
     arrow_up_right := credit;
     description := Backend.description tx;
     date := Backend.date tx;
     amount := (if credit then "+" else "-") ++ "$" ++ toFixed (Backend.amount tx) |}.

(** What the panel shows under its heading. *)
Inductive Panel : Type :=
| ask_the_agent
| no_transactions (accountType : string)
| recent_transactions (accountType : string) (rows : list Row).

(** The component, called with its two props. A string is truthy unless
    it is empty. *)
Definition TransactionHistory (transactions : list Backend.MockTransaction)
  (accountType : option string) : Panel :=
  match accountType with
  | Some name =>
      if truthy name then
        if (0 <? List.length transactions)%nat
        then recent_transactions name (map row transactions)
        else no_transactions name
      else ask_the_agent
  | None => ask_the_agent
  end.

(** The panel as [Conversation] renders it. *)
Definition panel (c : Conversation.Component) : Panel :=
  TransactionHistory (Conversation.transactions c) (Conversation.viewingHistory c).

End TransactionHistory.

(** ** Vocabulary of the further statements *)

(** The characters of a decimal numeral. *)

Definition is_digit (c : ascii) : bool :=
  ((48 <=? nat_of_ascii c) && (nat_of_ascii c <=? 57))%nat.

Fixpoint all_digits (s : string) : bool :=
  match s with
  | EmptyString => true
  | String c rest => is_digit c && all_digits rest
  end.

Module Frame.
Import Conversation.
(** Everything of the component but the mock banking state. *)
Definition outside_bank (c : Component) :=
  (isRecording c, transcript c, error c, status c, apiKeySelected c,
   (sessionPromiseRef c, inputAudioContextRef c, outputAudioContextRef c,
    mediaStreamRef c, scriptProcessorRef c, mediaStreamSourceRef c),
   (currentInputTranscriptionRef c, currentOutputTranscriptionRef c)).

(** The call is a history lookup of a property name that [mockData]
    inherits. *)
Definition looks_up_inherited (fc : GenAI.FunctionCall) : Prop :=
  GenAI.name fc = "getTransactionHistory"
  /\ In (JS.toLowerCase (GenAI.accountType (GenAI.args fc))) JS.Object_prototype.

(** The call is a transfer from an account to itself. *)
Definition transfers_to_itself (fc : GenAI.FunctionCall) : Prop :=
  GenAI.name fc = "transferFunds"
  /\ JS.toLowerCase (GenAI.fromAccount (GenAI.args fc))
     = JS.toLowerCase (GenAI.toAccount (GenAI.args fc)).
End Frame.

Module Shape.
Import Types.
(** What of a transcript is not the text of its last entry: the ids, the
    senders, and the entries before the last. *)
Definition shape (transcript : list Message) : list string * list Sender * list Message :=
  (map id transcript, map sender transcript, removelast transcript).

(** A message that carries one chunk of output transcription. *)
Definition output_chunk (text : string) : GenAI.LiveServerMessage :=
  Transcript.content_only (Transcript.chunk (Some text) None false).

(** A message that only completes the turn. *)
Definition turn_complete : GenAI.LiveServerMessage :=
  Transcript.content_only (Transcript.chunk None None true).
End Shape.

Module Reachable.
Import Conversation Session Bank.
(** The component records a recording exactly while it is connected, and
    holds no session promise while idle. *)
Definition consistent (c : Component) : Prop :=
  (isRecording c = true <-> status c = connected)
  /\ (status c = idle -> sessionPromiseRef c = None).

(** While the status is connected the component records. *)
Definition recording_while_connected (c : Component) : Prop :=
  status c = connected -> isRecording c = true.

(** Either no call of [startConversation] is suspended and the component
    is consistent, or one is, and the component is as [before_await] left
    an idle one. *)
Definition settled_or_begun (page : Page) : Prop :=
  match awaiting page with
  | O => consistent (shown page)
  | S O =>
      status (shown page) = connecting
      /\ isRecording (shown page) = false
      /\ sessionPromiseRef (shown page) = None
  | S (S _) => False
  end.

(** An attempt in which every step of the [try] block succeeds. *)
Definition succeeding (stream : MediaStream) (input output : AudioContext)
  (promise : SessionPromise) : Attempt :=
  {| getUserMedia := JS.Normal stream;
     new_inputAudioContext := JS.Normal input;
     new_outputAudioContext := JS.Normal output;
     live_connect := JS.Normal promise |}.

(** An attempt that acquires the stream and both contexts and then fails
    to connect. *)
Definition failing_to_connect (stream : MediaStream) (input output : AudioContext)
  (e : JS.Exn) : Attempt :=
  {| getUserMedia := JS.Normal stream;
     new_inputAudioContext := JS.Normal input;
     new_outputAudioContext := JS.Normal output;
     live_connect := JS.Throw e |}.
(** A tool call with a balance lookup, a transfer and a call of an unknown
    function. *)
Definition three_calls : list GenAI.FunctionCall :=
  [ lookup "getAccountBalance" "checking" None;
    transfer 300 "savings" "checking";
    lookup "closeAccount" "savings" None ].

End Reachable.

(** * Properties *)

(** ** JavaScript built-ins *)

Lemma slice0_nonneg {A : Type} (arr : list A) (n : Z) :
  0 <= n ->
  JS.slice0 arr n = firstn (Z.to_nat (Z.min n (Z.of_nat (List.length arr)))) arr.
Proof.
  intros Hn. unfold JS.slice0.
  destruct (Z.ltb_spec n 0) as [Hneg | _]; [lia | reflexivity].
Qed.

Lemma slice0_length_nonneg {A : Type} (arr : list A) (n : Z) :
  0 <= n ->
  Z.of_nat (List.length (JS.slice0 arr n)) = Z.min n (Z.of_nat (List.length arr)).
Proof.
  intros Hn. rewrite slice0_nonneg by assumption.
  rewrite length_firstn. lia.
Qed.

Lemma slice0_negative {A : Type} (arr : list A) (n : Z) :
  n < 0 ->
  JS.slice0 arr n = firstn (List.length arr - Z.to_nat (- n)) arr.
Proof.
  intros Hn. unfold JS.slice0.
  destruct (Z.ltb_spec n 0) as [_ | Hpos]; [| lia].
  f_equal. lia.
Qed.

(** [arr.slice(0, -1)] drops the last element. *)
Lemma slice0_drop_last {A : Type} (init : list A) (last : A) :
  JS.slice0 (init ++ [last]) (-1) = init.
Proof.
  rewrite slice0_negative by lia.
  rewrite length_app. simpl.
  replace (List.length init + 1 - Pos.to_nat 1)%nat with (List.length init + 0)%nat by lia.
  rewrite firstn_app_2. simpl. apply app_nil_r.
Qed.

Lemma keyof_Some (key : string) (k : Conversation.Key) :
  Conversation.keyof key = Some k <-> key = Backend.AccountType_name k.
Proof.
  unfold Conversation.keyof.
  destruct (String.eqb_spec key "checking") as [-> | Hc].
  - split; intros H.
    + injection H as <-. reflexivity.
    + destruct k; [reflexivity | discriminate].
  - destruct (String.eqb_spec key "savings") as [-> | Hs].
    + split; intros H.
      * injection H as <-. reflexivity.
      * destruct k; [discriminate | reflexivity].
    + split; intros H; [discriminate |].
      destruct k; simpl in H; congruence.
Qed.

Lemma keyof_None (key : string) :
  Conversation.keyof key = None <-> key <> "checking" /\ key <> "savings".
Proof.
  unfold Conversation.keyof.
  destruct (String.eqb_spec key "checking") as [-> | Hc].
  - split; [discriminate | intros [H _]; congruence].
  - destruct (String.eqb_spec key "savings") as [-> | Hs].
    + split; [discriminate | intros [_ H]; congruence].
    + split; auto.
Qed.

(** ** The mock backend *)

Section BackendFacts.
Variable entropy : Backend.Entropy.

Lemma push_from_length accountType today remaining :
  forall i transactions k,
    List.length (fst (Backend.push_from entropy accountType today remaining i transactions k))
    = (List.length transactions + remaining)%nat.
Proof.
  induction remaining as [| n IH]; intros i transactions k; simpl.
  - lia.
  - unfold Backend.bind at 1.
    destruct (Backend.transaction_at entropy accountType today i k) as [tx k'].
    rewrite IH, length_app. simpl. lia.
Qed.

Lemma generateRandomTransactions_length accountType count k :
  List.length (fst (Backend.generateRandomTransactions entropy accountType count k)) = count.
Proof.
  unfold Backend.generateRandomTransactions, Backend.bind.
  destruct (Backend.Date_now entropy k) as [today k'].
  rewrite push_from_length. reflexivity.
Qed.

Lemma mockData_checking_length :
  List.length (Backend.checking (Backend.mockData entropy)) = 20%nat.
Proof.
  unfold Backend.mockData, Backend.bind.
  pose proof (generateRandomTransactions_length Backend.Checking 20
                {| Backend.drawn := 0; Backend.read := 0 |}) as Hc.
  destruct (Backend.generateRandomTransactions entropy Backend.Checking 20 _) as [c k].
  destruct (Backend.generateRandomTransactions entropy Backend.Savings 15 k) as [s k'].
  exact Hc.
Qed.

Lemma mockData_savings_length :
  List.length (Backend.savings (Backend.mockData entropy)) = 15%nat.
Proof.
  unfold Backend.mockData, Backend.bind.
  destruct (Backend.generateRandomTransactions entropy Backend.Checking 20 _) as [c k].
  pose proof (generateRandomTransactions_length Backend.Savings 15 k) as Hs.
  destruct (Backend.generateRandomTransactions entropy Backend.Savings 15 k) as [s k'].
  exact Hs.
Qed.

End BackendFacts.

(** ** handleToolCall *)

Section ToolCalls.
Import Conversation Bank.
Variable entropy : Backend.Entropy.

(** A tool call of one function call, in a session: the state setters of
    the [switch], then one response. *)
Lemma handleToolCall_one accounts c p fc c' result :
  sessionPromiseRef c = Some p ->
  switch entropy accounts c fc = JS.Normal (c', result) ->
  handleToolCall entropy accounts c [fc]
  = {| component := c'; effects := [response_to p fc result]; thrown := None |}.
Proof.
  intros Hp Hs. unfold handleToolCall. rewrite Hp. simpl. rewrite Hs. reflexivity.
Qed.

(** The [switch] never assigns [sessionPromiseRef]. *)
Lemma switch_session accounts c fc c' result :
  switch entropy accounts c fc = JS.Normal (c', result) ->
  sessionPromiseRef c' = sessionPromiseRef c.
Proof.
  unfold switch.
  repeat match goal with
    | |- context [if ?b then _ else _] => destruct b
    | |- context [match ?x with _ => _ end] => destruct x
    end;
    intros H; try discriminate H; injection H as <- <-; reflexivity.
Qed.

(** A tool call of several function calls handles them in order, each
    against the same captured [accounts]. *)
Lemma handleToolCall_cons accounts c p fc rest c' result :
  sessionPromiseRef c = Some p ->
  switch entropy accounts c fc = JS.Normal (c', result) ->
  handleToolCall entropy accounts c (fc :: rest)
  = let after := handleToolCall entropy accounts c' rest in
    {| component := component after;
       effects := response_to p fc result :: effects after;
       thrown := thrown after |}.
Proof.
  intros Hp Hs. unfold handleToolCall.
  rewrite (switch_session _ _ _ _ _ Hs), Hp. simpl. rewrite Hs. reflexivity.
Qed.


Lemma switch_transferFunds accounts c fc :
  GenAI.name fc = "transferFunds" ->
  switch entropy accounts c fc
  = let amount := GenAI.amount (GenAI.args fc) in
    let from := JS.toLowerCase (GenAI.fromAccount (GenAI.args fc)) in
    let to := JS.toLowerCase (GenAI.toAccount (GenAI.args fc)) in
    match keyof from, keyof to with
    | Some from_key, Some to_key =>
        if get accounts from_key <? amount then
          JS.Normal (c, insufficient_result "Insufficient funds." (get accounts from_key))
        else
          JS.Normal
            (setAccounts
               (fun prev =>
                  assign to_key (get prev to_key + amount)
                    (assign from_key (get prev from_key - amount) prev))
               c,
             transfer_result true from to amount (get accounts from_key - amount))
    | _, _ => JS.Normal (c, error_result "Invalid account specified.")
    end.
Proof. intros Hn. unfold switch. rewrite Hn. reflexivity. Qed.

(** A transfer between two different accounts debits the one and credits
    the other. *)
Lemma transferFunds_between accounts c p fc from_key to_key :
  sessionPromiseRef c = Some p ->
  GenAI.name fc = "transferFunds" ->
  keyof (JS.toLowerCase (GenAI.fromAccount (GenAI.args fc))) = Some from_key ->
  keyof (JS.toLowerCase (GenAI.toAccount (GenAI.args fc))) = Some to_key ->
  from_key <> to_key ->
  GenAI.amount (GenAI.args fc) <= get accounts from_key ->
  let amount := GenAI.amount (GenAI.args fc) in
  let out := handleToolCall entropy accounts c [fc] in
  get (Conversation.accounts (component out)) from_key
    = get (Conversation.accounts c) from_key - amount
  /\ get (Conversation.accounts (component out)) to_key
    = get (Conversation.accounts c) to_key + amount
  /\ effects out
    = [response_to p fc
         (transfer_result true
            (JS.toLowerCase (GenAI.fromAccount (GenAI.args fc)))
            (JS.toLowerCase (GenAI.toAccount (GenAI.args fc)))
            amount (get accounts from_key - amount))].
Proof.
  intros Hp Hn Hfrom Hto Hne Hle amount out.
  pose proof (switch_transferFunds accounts c fc Hn) as Hs.
  cbv zeta in Hs. rewrite Hfrom, Hto in Hs.
  destruct (Z.ltb_spec (get accounts from_key) (GenAI.amount (GenAI.args fc))) as [Hlt | _];
    [lia |].
  subst out. rewrite (handleToolCall_one _ _ _ _ _ _ Hp Hs). simpl.
  destruct from_key, to_key; try congruence; simpl; auto.
Qed.

Lemma switch_getAccountBalance accounts c fc :
  GenAI.name fc = "getAccountBalance" ->
  switch entropy accounts c fc
  = let accountType := JS.toLowerCase (GenAI.accountType (GenAI.args fc)) in
    match keyof accountType with
    | Some key => JS.Normal (c, balance_result (get accounts key))
    | None =>
        JS.Normal (c, error_result ("Account type '" ++ accountType ++ "' not found."))
    end.
Proof. intros Hn. unfold switch. rewrite Hn. reflexivity. Qed.


(** A balance lookup is answered with the balance that [accounts], the
    value the callback closed over, holds under the lower-cased account
    type when that is 'checking' or 'savings', and with an error naming the
    account type otherwise; the component is left as it was. *)
Lemma getAccountBalance_result accounts c p fc :
  sessionPromiseRef c = Some p ->
  GenAI.name fc = "getAccountBalance" ->
  let accountType := JS.toLowerCase (GenAI.accountType (GenAI.args fc)) in
  exists result,
    handleToolCall entropy accounts c [fc]
    = {| component := c; effects := [response_to p fc result]; thrown := None |}
    /\ (accountType = "checking" -> result = balance_result (checking accounts))
    /\ (accountType = "savings" -> result = balance_result (savings accounts))
    /\ (accountType <> "checking" -> accountType <> "savings" ->
        result = error_result ("Account type '" ++ accountType ++ "' not found.")).
Proof.
  intros Hp Hn accountType.
  pose proof (switch_getAccountBalance accounts c fc Hn) as Hs.
  cbv zeta in Hs. fold accountType in Hs.
  destruct (keyof accountType) as [key |] eqn:Hkey.
  - exists (balance_result (get accounts key)).
    split; [exact (handleToolCall_one _ _ _ _ _ _ Hp Hs) |].
    apply keyof_Some in Hkey.
    destruct key; simpl in *; rewrite Hkey;
      repeat split; intros; try reflexivity; try discriminate; congruence.
  - exists (error_result ("Account type '" ++ accountType ++ "' not found.")).
    split; [exact (handleToolCall_one _ _ _ _ _ _ Hp Hs) |].
    apply keyof_None in Hkey. destruct Hkey as [Hc Hsv].
    repeat split; intros; congruence.
Qed.

(** A transfer is answered with an error exactly when one of the
    lower-cased account names is not a key of the accounts or the balance
    that [accounts], the value the callback closed over, holds for the
    from-account is strictly below the amount; an error leaves the
    component, and so the accounts, as they were; a transfer of exactly that
    balance succeeds. *)
Lemma transferFunds_error_iff accounts c p fc :
  sessionPromiseRef c = Some p ->
  GenAI.name fc = "transferFunds" ->
  let amount := GenAI.amount (GenAI.args fc) in
  let from := JS.toLowerCase (GenAI.fromAccount (GenAI.args fc)) in
  let to := JS.toLowerCase (GenAI.toAccount (GenAI.args fc)) in
  let out := handleToolCall entropy accounts c [fc] in
  exists result,
    effects out = [response_to p fc result]
    /\ thrown out = None
    /\ (error_of result <> None <->
        keyof from = None \/ keyof to = None
        \/ exists from_key, keyof from = Some from_key /\ get accounts from_key < amount)
    /\ (error_of result <> None -> component out = c)
    /\ (forall from_key, keyof from = Some from_key -> keyof to <> None ->
        get accounts from_key = amount ->
        error_of result = None /\ success_of result = Some true).
Proof.
  intros Hp Hn amount from to out.
  pose proof (switch_transferFunds accounts c fc Hn) as Hs.
  cbv zeta in Hs. fold amount from to in Hs.
  assert (Hout : forall c' result,
             switch entropy accounts c fc = JS.Normal (c', result) ->
             effects out = [response_to p fc result] /\ thrown out = None
             /\ component out = c').
  { intros c' result H. subst out. rewrite (handleToolCall_one _ _ _ _ _ _ Hp H).
    simpl. auto. }
  destruct (keyof from) as [from_key |] eqn:Hfrom;
    [destruct (keyof to) as [to_key |] eqn:Hto;
     [destruct (Z.ltb_spec (get accounts from_key) amount) as [Hlt | Hge] |] |];
    destruct (Hout _ _ Hs) as (Heff & Hthrown & Hc);
    eexists; (split; [exact Heff |]); (split; [exact Hthrown |]); simpl.
  - (* insufficient funds *)
    split; [split |].
    + intros _. right. right. exists from_key. split; [reflexivity | exact Hlt].
    + intros _. discriminate.
    + split; [intros _; exact Hc |].
      intros k Hk _ Hbal. injection Hk as <-. lia.
  - (* the transfer goes through *)
    split; [split |].
    + intros H. contradiction.
    + intros [H | [H | [k [Hk Hlt]]]]; try discriminate.
      injection Hk as <-. lia.
    + split; [intros H; contradiction |].
      intros k _ _ _. split; reflexivity.
  - (* the to-account is not a key *)
    split; [split |].
    + intros _. right. left. reflexivity.
    + intros _. discriminate.
    + split; [intros _; exact Hc |].
      intros k _ H. contradiction.
  - (* the from-account is not a key *)
    split; [split |].
    + intros _. left. reflexivity.
    + intros _. discriminate.
    + split; [intros _; exact Hc |].
      intros k Hk. discriminate.
Qed.

Lemma switch_getTransactionHistory accounts c fc :
  GenAI.name fc = "getTransactionHistory" ->
  switch entropy accounts c fc
  = let historyAccount := GenAI.accountType (GenAI.args fc) in
    match Backend.getMockTransactionHistory entropy (JS.toLowerCase historyAccount)
            (GenAI.limit (GenAI.args fc)) with
    | JS.Throw e => JS.Throw e
    | JS.Normal history =>
        JS.Normal
          (setViewingHistory (Some historyAccount) (setTransactions history c),
           history_result true (List.length history))
    end.
Proof. intros Hn. unfold switch. rewrite Hn. reflexivity. Qed.


Lemma stored_length key :
  Z.of_nat (List.length (stored entropy key)) = stored_count key.
Proof.
  destruct key; unfold stored, stored_count.
  - rewrite mockData_checking_length. reflexivity.
  - rewrite mockData_savings_length. reflexivity.
Qed.

(** On a key of the accounts, the backend slices the list stored under it. *)
Lemma getMockTransactionHistory_key accountType key limit :
  keyof accountType = Some key ->
  Backend.getMockTransactionHistory entropy accountType limit
  = JS.Normal (JS.slice0 (stored entropy key) (match limit with Some n => n | None => 10 end)).
Proof.
  intros Hkey. apply keyof_Some in Hkey. subst accountType.
  unfold Backend.getMockTransactionHistory, Backend.mockData_get, stored.
  destruct key; unfold Backend.AccountType_name.
  - rewrite String.eqb_refl. reflexivity.
  - destruct (String.eqb_spec "savings" "checking") as [E | _]; [discriminate E |].
    rewrite String.eqb_refl. reflexivity.
Qed.

(** On a string that [mockData] neither owns nor inherits, the backend
    returns the empty array. *)
Lemma getMockTransactionHistory_unknown accountType limit :
  keyof accountType = None ->
  JS.inherited accountType = false ->
  Backend.getMockTransactionHistory entropy accountType limit = JS.Normal [].
Proof.
  intros Hkey Hin. apply keyof_None in Hkey. destruct Hkey as [Hc Hs].
  unfold Backend.getMockTransactionHistory, Backend.mockData_get.
  apply String.eqb_neq in Hc, Hs. rewrite Hc, Hs, Hin. reflexivity.
Qed.

(** On an account type it stores and a limit that is not negative, the
    backend returns at most [limit] transactions and at most the stored
    count; an omitted limit is 10. *)
Lemma getMockTransactionHistory_bounds accountType key limit :
  keyof accountType = Some key ->
  let n := match limit with Some n => n | None => 10 end in
  0 <= n ->
  exists history,
    Backend.getMockTransactionHistory entropy accountType limit = JS.Normal history
    /\ Z.of_nat (List.length history) <= n
    /\ Z.of_nat (List.length history) <= stored_count key.
Proof.
  intros Hkey n Hn. eexists. split; [apply getMockTransactionHistory_key, Hkey |].
  fold n. rewrite slice0_length_nonneg, stored_length by assumption. lia.
Qed.

(** C4, amended. A history lookup on an account type whose lower-casing is
    a key of the accounts, with a limit that is absent (then 10) or not
    negative, sets [transactions] to the first [min(limit, stored count)]
    transactions stored for that account and [viewingHistory] to the account
    type as the call spells it, and answers with the length of that
    prefix. *)
Theorem getTransactionHistory_shows_first accounts c p fc key :
  sessionPromiseRef c = Some p ->
  GenAI.name fc = "getTransactionHistory" ->
  keyof (JS.toLowerCase (GenAI.accountType (GenAI.args fc))) = Some key ->
  let limit := match GenAI.limit (GenAI.args fc) with Some n => n | None => 10 end in
  0 <= limit ->
  let out := handleToolCall entropy accounts c [fc] in
  shows_first entropy key limit (component out)
  /\ viewingHistory (component out) = Some (GenAI.accountType (GenAI.args fc))
  /\ effects out
     = [response_to p fc
          (history_result true (List.length (transactions (component out))))]
  /\ Z.of_nat (List.length (transactions (component out))) = Z.min limit (stored_count key)
  /\ thrown out = None.
Proof.
  intros Hp Hn Hkey limit Hlimit out.
  pose proof (switch_getTransactionHistory accounts c fc Hn) as Hs.
  cbv zeta in Hs.
  rewrite (getMockTransactionHistory_key _ _ _ Hkey) in Hs. fold limit in Hs.
  subst out. rewrite (handleToolCall_one _ _ _ _ _ _ Hp Hs). simpl.
  unfold shows_first. simpl.
  rewrite slice0_nonneg, stored_length by assumption.
  repeat split. rewrite length_firstn.
  pose proof (stored_length key). lia.
Qed.


(** C10, at the failing input. Asked for the account type 'constructor',
    which [mockData] inherits from [Object.prototype], the backend throws a
    TypeError instead of returning the empty array. *)
Theorem getMockTransactionHistory_constructor limit :
  Backend.getMockTransactionHistory entropy "constructor" limit
  = JS.Throw (JS.TypeError "mockData[accountType]?.slice is not a function")
  /\ Backend.getMockTransactionHistory entropy "constructor" limit <> JS.Normal [].
Proof. split; [reflexivity | discriminate]. Qed.

(** The exception of the backend leaves [handleToolCall]: the call gets no
    response, and the calls after it in the same tool call are not run. *)
Lemma getTransactionHistory_constructor accounts c p rest :
  sessionPromiseRef c = Some p ->
  handleToolCall entropy accounts c
    (lookup "getTransactionHistory" "Constructor" None :: rest)
  = {| component := c; effects := [];
       thrown := Some (JS.TypeError "mockData[accountType]?.slice is not a function") |}.
Proof. intros Hp. unfold handleToolCall. rewrite Hp. reflexivity. Qed.

End ToolCalls.

(** ** startConversation and stopConversation *)

Section Lifecycle.
Import Conversation.

(** C8. Whatever the component was, after [stopConversation] recording is
    off, the status is idle, and the session, media stream, script
    processor, stream source and both audio context refs are null, while the
    transcript, the accounts, the transactions, the viewed history and the
    error are those of before. *)
Theorem stopConversation_resets (c : Component) :
  let c' := fst (stopConversation c) in
  isRecording c' = false
  /\ status c' = idle
  /\ sessionPromiseRef c' = None
  /\ mediaStreamRef c' = None
  /\ scriptProcessorRef c' = None
  /\ mediaStreamSourceRef c' = None
  /\ inputAudioContextRef c' = None
  /\ outputAudioContextRef c' = None
  /\ transcript c' = transcript c
  /\ accounts c' = accounts c
  /\ transactions c' = transactions c
  /\ viewingHistory c' = viewingHistory c
  /\ error c' = error c.
Proof. cbv zeta. unfold stopConversation. simpl. repeat split. Qed.

(** What [stopConversation] asks of the outside objects: each object that a
    ref still holds is closed, stopped or disconnected once, the session
    last. *)
Lemma stopConversation_effects (c : Component) :
  snd (stopConversation c)
  = (if_current (mediaStreamRef c) stop_tracks
       ++ if_current (scriptProcessorRef c) disconnect_processor
       ++ if_current (mediaStreamSourceRef c) disconnect_source
       ++ if_current (inputAudioContextRef c) close_context
       ++ if_current (outputAudioContextRef c) close_context
       ++ if_current (sessionPromiseRef c) close_session)%list.
Proof. reflexivity. Qed.

(** The state that the [try] block of [startConversation] is entered with. *)
Lemma try_block_frame attempt c :
  let c' := fst (try_block attempt c) in
  isRecording c' = isRecording c
  /\ transcript c' = transcript c
  /\ error c' = error c
  /\ status c' = status c
  /\ accounts c' = accounts c
  /\ transactions c' = transactions c
  /\ viewingHistory c' = viewingHistory c
  /\ scriptProcessorRef c' = scriptProcessorRef c
  /\ mediaStreamSourceRef c' = mediaStreamSourceRef c.
Proof.
  cbv zeta. unfold try_block.
  destruct (getUserMedia attempt); [| simpl; repeat split].
  destruct (new_inputAudioContext attempt); [| simpl; repeat split].
  destruct (new_outputAudioContext attempt); [| simpl; repeat split].
  destruct (live_connect attempt); simpl; repeat split.
Qed.


End Lifecycle.

(** ** handleMessage *)

Section Messages.
Import Types Conversation Bank Transcript.
Variable entropy : Backend.Entropy.

Lemma last_sender_snoc (init : list Message) (last : Message) :
  last_sender (init ++ [last]) = Some (sender last).
Proof.
  induction init as [| entry init IH]; [reflexivity |].
  simpl. destruct (init ++ [last])%list eqn:E; [| exact IH].
  destruct init; discriminate E.
Qed.

Lemma nth_error_snoc {A : Type} (init : list A) (last : A) :
  nth_error (init ++ [last]) (List.length (init ++ [last]) - 1) = Some last.
Proof.
  rewrite length_app. simpl.
  replace (List.length init + 1 - 1)%nat with (List.length init) by lia.
  rewrite nth_error_app2 by lia. rewrite Nat.sub_diag. reflexivity.
Qed.

Lemma replace_last_snoc who current init last :
  replace_last who current (init ++ [last])
  = if Sender_eqb (sender last) who
    then (init ++ [with_text last current])%list
    else (init ++ [last])%list.
Proof.
  unfold replace_last. rewrite nth_error_snoc.
  destruct (Sender_eqb (sender last) who); [| reflexivity].
  rewrite slice0_drop_last. reflexivity.
Qed.

Lemma replace_last_other who current prev :
  last_sender prev <> Some who ->
  replace_last who current prev = prev.
Proof.
  intros Hother.
  destruct prev as [| entry rest] using rev_ind; [reflexivity |].
  rewrite replace_last_snoc. rewrite last_sender_snoc in Hother.
  destruct (sender entry), who; simpl; try reflexivity; congruence.
Qed.

(** The transcript and the accumulators after the transcription branches:
    every updater reads the accumulator as the handler left it. *)
Lemma transcriptions_transcript content c :
  let output' :=
    match GenAI.outputTranscription content with
    | Some text => currentOutputTranscriptionRef c ++ text
    | None => currentOutputTranscriptionRef c
    end in
  let input' :=
    match GenAI.inputTranscription content with
    | Some text => currentInputTranscriptionRef c ++ text
    | None => currentInputTranscriptionRef c
    end in
  let output_read := if GenAI.turnComplete content then "" else output' in
  let input_read := if GenAI.turnComplete content then "" else input' in
  let after_output :=
    match GenAI.outputTranscription content with
    | Some _ => replace_last Agent output_read (transcript c)
    | None => transcript c
    end in
  let after_input :=
    match GenAI.inputTranscription content with
    | Some _ => replace_last User input_read after_output
    | None => after_output
    end in
  transcript (transcriptions content c)
  = (if GenAI.turnComplete content then
       let after_user :=
         if JS.truthy (JS.trim input') then replace_last User input_read after_input
         else after_input in
       if JS.truthy (JS.trim output') then replace_last Agent output_read after_user
       else after_user
     else after_input)
  /\ currentOutputTranscriptionRef (transcriptions content c) = output_read
  /\ currentInputTranscriptionRef (transcriptions content c) = input_read.
Proof.
  unfold transcriptions, transcription_branches, render, from_output, from_input.
  destruct (GenAI.outputTranscription content), (GenAI.inputTranscription content),
    (GenAI.turnComplete content); cbv zeta; simpl;
    repeat match goal with
      | |- context [JS.truthy (JS.trim (currentInputTranscriptionRef c ++ ?t))] =>
          destruct (JS.truthy (JS.trim (currentInputTranscriptionRef c ++ t))); simpl
      | |- context [JS.truthy (JS.trim (currentInputTranscriptionRef c))] =>
          destruct (JS.truthy (JS.trim (currentInputTranscriptionRef c))); simpl
      end;
    repeat match goal with
      | |- context [JS.truthy ?accumulated] => destruct (JS.truthy accumulated); simpl
      end;
    repeat split.
Qed.

Lemma replace_last_hit who current init last :
  sender last = who ->
  replace_last who current (init ++ [last]) = (init ++ [with_text last current])%list.
Proof.
  intros <-. rewrite replace_last_snoc. destruct (sender last); reflexivity.
Qed.

Lemma replace_last_miss who current init last :
  sender last <> who ->
  replace_last who current (init ++ [last]) = (init ++ [last])%list.
Proof.
  intros Hother. apply replace_last_other. rewrite last_sender_snoc. congruence.
Qed.

(** The [switch] of [handleToolCall] touches neither the transcript nor the
    accumulators. *)
Lemma switch_frame accounts c fc c' result :
  switch entropy accounts c fc = JS.Normal (c', result) ->
  transcript c' = transcript c
  /\ currentInputTranscriptionRef c' = currentInputTranscriptionRef c
  /\ currentOutputTranscriptionRef c' = currentOutputTranscriptionRef c.
Proof.
  unfold switch.
  repeat match goal with
    | |- context [if ?b then _ else _] => destruct b
    | |- context [match ?x with _ => _ end] => destruct x
    end;
    intros H; try discriminate H; injection H as <- <-; repeat split.
Qed.

Lemma for_of_frame p accounts functionCalls :
  forall c,
    let c' := component (for_of entropy p accounts c functionCalls) in
    transcript c' = transcript c
    /\ currentInputTranscriptionRef c' = currentInputTranscriptionRef c
    /\ currentOutputTranscriptionRef c' = currentOutputTranscriptionRef c.
Proof.
  induction functionCalls as [| fc rest IH]; intros c; simpl; [repeat split |].
  destruct (switch entropy accounts c fc) as [[c1 result] | e] eqn:Hs; simpl;
    [| repeat split].
  destruct (switch_frame _ _ _ _ _ Hs) as (Ht & Hi & Ho).
  destruct (IH c1) as (Ht' & Hi' & Ho').
  rewrite <- Ht, <- Hi, <- Ho. auto.
Qed.

Lemma handleToolCall_frame accounts c toolCall :
  let c' := component (handleToolCall entropy accounts c toolCall) in
  transcript c' = transcript c
  /\ currentInputTranscriptionRef c' = currentInputTranscriptionRef c
  /\ currentOutputTranscriptionRef c' = currentOutputTranscriptionRef c.
Proof.
  unfold handleToolCall. destruct (sessionPromiseRef c); [apply for_of_frame |].
  simpl. repeat split.
Qed.

(** A message whose tool call, if it has one, does not throw goes on to the
    transcription branches, entered with the transcript and the
    accumulators of before. *)
Lemma handleMessage_content accounts c message content :
  GenAI.serverContent message = Some content ->
  (forall toolCall, GenAI.toolCall message = Some toolCall ->
     thrown (handleToolCall entropy accounts c toolCall) = None) ->
  exists called,
    component (handleMessage entropy accounts c message) = transcriptions content called
    /\ transcript called = transcript c
    /\ currentInputTranscriptionRef called = currentInputTranscriptionRef c
    /\ currentOutputTranscriptionRef called = currentOutputTranscriptionRef c.
Proof.
  intros Hcontent Hcalm. unfold handleMessage. rewrite Hcontent.
  destruct (GenAI.toolCall message) as [toolCall |].
  - rewrite (Hcalm toolCall eq_refl). simpl.
    eexists. split; [reflexivity | apply handleToolCall_frame].
  - simpl. eexists. split; [reflexivity | repeat split].
Qed.

(** A chunk of output (input) transcription in a message that does not
    complete the turn is appended to the output (input) accumulator. When
    the last entry of the transcript is the Agent's (the User's), its text
    becomes the accumulated string and the entries before it stay as they
    are; when the last entry is of the other sender, or there is none, the
    transcript stays as it is. *)
Lemma handleMessage_chunk accounts c message content :
  GenAI.serverContent message = Some content ->
  (forall toolCall, GenAI.toolCall message = Some toolCall ->
     thrown (handleToolCall entropy accounts c toolCall) = None) ->
  GenAI.turnComplete content = false ->
  let c' := component (handleMessage entropy accounts c message) in
  (forall text, GenAI.outputTranscription content = Some text ->
     currentOutputTranscriptionRef c' = currentOutputTranscriptionRef c ++ text
     /\ (forall init last,
           transcript c = (init ++ [last])%list -> sender last = Agent ->
           transcript c'
           = (init ++ [with_text last (currentOutputTranscriptionRef c ++ text)])%list))
  /\ (forall text, GenAI.inputTranscription content = Some text ->
     currentInputTranscriptionRef c' = currentInputTranscriptionRef c ++ text
     /\ (forall init last,
           transcript c = (init ++ [last])%list -> sender last = User ->
           transcript c'
           = (init ++ [with_text last (currentInputTranscriptionRef c ++ text)])%list))
  /\ ((GenAI.outputTranscription content <> None ->
       last_sender (transcript c) <> Some Agent) ->
      (GenAI.inputTranscription content <> None ->
       last_sender (transcript c) <> Some User) ->
      transcript c' = transcript c).
Proof.
  intros Hcontent Hcalm Hturn c'.
  destruct (handleMessage_content accounts c message content Hcontent Hcalm)
    as (called & Hc' & Ht & Hi & Ho).
  subst c'. rewrite Hc'.
  destruct (transcriptions_transcript content called) as (Htr & Hout & Hin).
  cbv zeta in Htr, Hout, Hin. rewrite Hturn in Htr, Hout, Hin.
  rewrite Htr, Hout, Hin, Ht, Hi, Ho. clear Htr Hout Hin Hc'.
  split; [| split].
  - (* a chunk of output *)
    intros text Htext. rewrite Htext. split; [reflexivity |].
    intros init last Hsplit Hagent. rewrite Hsplit.
    rewrite (replace_last_hit Agent _ init last Hagent).
    destruct (GenAI.inputTranscription content); [| reflexivity].
    apply replace_last_miss. simpl. congruence.
  - (* a chunk of input *)
    intros text Htext. rewrite Htext. split; [reflexivity |].
    intros init last Hsplit Huser. rewrite Hsplit.
    destruct (GenAI.outputTranscription content).
    + rewrite (replace_last_miss Agent) by congruence.
      apply replace_last_hit. exact Huser.
    + apply replace_last_hit. exact Huser.
  - (* the last entry is of the other sender *)
    intros Hagent Huser.
    destruct (GenAI.outputTranscription content) as [text |].
    + rewrite (replace_last_other Agent) by (apply Hagent; discriminate).
      destruct (GenAI.inputTranscription content) as [text' |]; [| reflexivity].
      apply replace_last_other. apply Huser. discriminate.
    + destruct (GenAI.inputTranscription content) as [text' |]; [| reflexivity].
      apply replace_last_other. apply Huser. discriminate.
Qed.

(** A message that completes the turn leaves both accumulators empty, and
    every updater it queued reads them empty: an entry whose text one of
    them replaces is left with the empty string. *)
Lemma handleMessage_turnComplete accounts c message content :
  GenAI.serverContent message = Some content ->
  (forall toolCall, GenAI.toolCall message = Some toolCall ->
     thrown (handleToolCall entropy accounts c toolCall) = None) ->
  GenAI.turnComplete content = true ->
  let c' := component (handleMessage entropy accounts c message) in
  currentInputTranscriptionRef c' = ""
  /\ currentOutputTranscriptionRef c' = ""
  /\ (forall init last text,
        transcript c = (init ++ [last])%list -> sender last = Agent ->
        GenAI.outputTranscription content = Some text ->
        transcript c' = (init ++ [with_text last ""])%list).
Proof.
  intros Hcontent Hcalm Hturn c'.
  destruct (handleMessage_content accounts c message content Hcontent Hcalm)
    as (called & Hc' & Ht & Hi & Ho).
  subst c'. rewrite Hc'.
  destruct (transcriptions_transcript content called) as (Htr & Hout & Hin).
  cbv zeta in Htr, Hout, Hin. rewrite Hturn in Htr, Hout, Hin.
  rewrite Htr, Hout, Hin, Ht, Hi, Ho. clear Htr Hout Hin Hc'.
  split; [reflexivity | split; [reflexivity |]].
  intros init last text Hsplit Hagent Htext. rewrite Htext, Hsplit.
  rewrite (replace_last_hit Agent _ init last Hagent).
  assert (Hinput : replace_last User "" (init ++ [with_text last ""])
                   = (init ++ [with_text last ""])%list).
  { apply replace_last_miss. simpl. congruence. }
  assert (Hagain : replace_last Agent "" (init ++ [with_text last ""])
                   = (init ++ [with_text last ""])%list).
  { rewrite replace_last_hit by exact Hagent. reflexivity. }
  destruct (GenAI.inputTranscription content); rewrite ?Hinput;
    repeat match goal with
      | |- context [if ?b then _ else _] => destruct b
      end;
    rewrite ?Hinput, ?Hagain; reflexivity.
Qed.

End Messages.

(** ** Closed instances *)

Section Instances.
Import Types Conversation Bank Transcript.

(** C1, at the failing input. A transfer of 100 from checking to checking,
    with 1000 in checking: the accounts end with 1100 in checking, not 900,
    while the response reports a new from-balance of 900. *)
Example transferFunds_to_itself :
  let fc := transfer 100 "checking" "checking" in
  let out :=
    handleToolCall Backend.sample_entropy (accounts in_session) in_session [fc] in
  accounts (component out) = {| checking := 1100; savings := 5000 |}
  /\ effects out
     = [response_to 7%nat fc (transfer_result true "checking" "checking" 100 900)].
Proof. split; reflexivity. Qed.

(** The balance that a transfer is checked against is the one the callback
    closed over: two transfers of 800 out of 1000 in one tool call are both
    answered with success and a new balance of 200, and leave -600. *)
Example transferFunds_twice_in_one_call :
  let fc := transfer 800 "checking" "savings" in
  let out :=
    handleToolCall Backend.sample_entropy (accounts in_session) in_session [fc; fc] in
  accounts (component out) = {| checking := -600; savings := 6600 |}
  /\ effects out
     = [response_to 7%nat fc (transfer_result true "checking" "savings" 800 200);
        response_to 7%nat fc (transfer_result true "checking" "savings" 800 200)].
Proof. split; reflexivity. Qed.



(** C3, at the failing input. A session is started with 1000 in checking.
    Its first message transfers 100 from checking to savings, and the state
    holds 900; its second message asks for the balance of checking and is
    answered 1000, the balance that the callback closed over when the
    session was started. *)
Example getAccountBalance_after_transfer :
  let onmessage := Closure.onmessage Backend.sample_entropy in_session in
  let moved :=
    component (onmessage in_session
                 (Closure.tool_call [transfer 100 "checking" "savings"])) in
  let fc := lookup "getAccountBalance" "checking" None in
  let out := onmessage moved (Closure.tool_call [fc]) in
  accounts moved = {| checking := 900; savings := 5100 |}
  /\ effects out = [response_to 7%nat fc (balance_result 1000)]
  /\ accounts (component out) = {| checking := 900; savings := 5100 |}.
Proof. cbv zeta. repeat split; vm_compute; reflexivity. Qed.

(** C5, at the failing input. A session is started with 1000 in checking.
    Its first message transfers 800 from checking to savings, and the state
    holds 200; its second message asks for the same transfer and is
    answered with success and a new balance of 200, not with an error,
    although 200 is below 800: checking ends at -600. The amount is
    compared with the balance that the callback closed over when the
    session was started, the update is applied to the state. *)
Example transferFunds_after_transfer :
  let onmessage := Closure.onmessage Backend.sample_entropy in_session in
  let fc := transfer 800 "checking" "savings" in
  let first := component (onmessage in_session (Closure.tool_call [fc])) in
  let out := onmessage first (Closure.tool_call [fc]) in
  accounts first = {| checking := 200; savings := 5800 |}
  /\ effects out
     = [response_to 7%nat fc (transfer_result true "checking" "savings" 800 200)]
  /\ accounts (component out) = {| checking := -600; savings := 6600 |}.
Proof. cbv zeta. repeat split; vm_compute; reflexivity. Qed.

(** A lookup of the history of 'Savings' with limit 40: the fifteen stored
    transactions are shown. *)
Lemma getTransactionHistory_shows_first_witness :
  let fc := lookup "getTransactionHistory" "Savings" (Some 40) in
  let out :=
    handleToolCall Backend.sample_entropy (accounts in_session) in_session [fc] in
  0 <= 40
  /\ shows_first Backend.sample_entropy Backend.Savings 40 (component out)
  /\ viewingHistory (component out) = Some "Savings"
  /\ Z.of_nat (List.length (transactions (component out))) = 15.
Proof.
  cbv zeta. split; [lia |].
  destruct (getTransactionHistory_shows_first Backend.sample_entropy
              (accounts in_session) in_session 7%nat
              (lookup "getTransactionHistory" "Savings" (Some 40)) Backend.Savings
              eq_refl eq_refl eq_refl ltac:(simpl; lia))
    as (Hfirst & Hview & _ & Hlength & _).
  split; [exact Hfirst | split; [exact Hview | exact Hlength]].
Defined.

(** A chunk in a message whose tool call throws is not handled at all:
    the exception of the history lookup of 'constructor' leaves
    [handleMessage] before the transcription branches. *)
Example handleMessage_chunk_after_throw :
  let message :=
    {| GenAI.toolCall := Some [lookup "getTransactionHistory" "constructor" None];
       GenAI.serverContent := Some (chunk (Some "lo") None false) |} in
  let out := handleMessage Backend.sample_entropy (accounts listening) listening message in
  thrown out <> None
  /\ currentOutputTranscriptionRef (component out) = "Hel"
  /\ transcript (component out) = transcript listening.
Proof. cbv zeta. repeat split; vm_compute; discriminate. Qed.

(** C4, as stated, fails on a negative limit: asked for the checking
    history with limit -5, [slice(0, -5)] drops the last five of the twenty
    stored transactions and shows fifteen, where the first min(-5, 20) are
    none. *)
Lemma getTransactionHistory_negative_limit :
  let fc := lookup "getTransactionHistory" "checking" (Some (-5)) in
  let out :=
    handleToolCall Backend.sample_entropy (accounts in_session) in_session [fc] in
  List.length (transactions (component out)) = 15%nat
  /\ ~ shows_first Backend.sample_entropy Backend.Checking (-5) (component out).
Proof.
  cbv zeta. split.
  - vm_compute. reflexivity.
  - intros H. apply (f_equal (@List.length _)) in H.
    vm_compute in H. discriminate H.
Qed.



(** C9, at the failing input. The chunk 'lo' arrives after 'Hel' in a
    message that also completes the turn. The handler appends the chunk and
    gives [setTranscript] two updaters, one for the chunk and one for the
    completed turn, then empties the accumulators; both updaters run after
    that and read the empty string. The Agent's entry is left with the empty
    text, not with 'Hello'. The same chunk without [turnComplete] leaves
    'Hello'. *)
Example handleMessage_chunk_with_turnComplete :
  let completing := chunk (Some "lo") None true in
  let streaming := chunk (Some "lo") None false in
  let onmessage := handleMessage Backend.sample_entropy (accounts listening) listening in
  let c' := component (onmessage (content_only completing)) in
  let c'' := component (onmessage (content_only streaming)) in
  currentOutputTranscriptionRef listening = "Hel"
  /\ snd (transcription_branches completing listening) = [from_output; from_output]
  /\ transcript c'
     = [ {| Types.id := "1"; sender := User; text := "" |};
         {| Types.id := "2"; sender := Agent; text := "" |} ]
  /\ currentOutputTranscriptionRef c' = ""
  /\ transcript c''
     = [ {| Types.id := "1"; sender := User; text := "" |};
         {| Types.id := "2"; sender := Agent; text := "Hello" |} ]
  /\ currentOutputTranscriptionRef c'' = "Hello".
Proof. cbv zeta. repeat split; vm_compute; reflexivity. Qed.

End Instances.

(** * Further properties *)

(** ** The mock backend, continued *)


Lemma string_of_uint_digits (d : Decimal.uint) :
  all_digits (NilEmpty.string_of_uint d) = true.
Proof. induction d; simpl; auto. Qed.

Lemma string_of_Z_digits (z : Z) : 0 <= z -> all_digits (JS.string_of_Z z) = true.
Proof.
  intros Hz. unfold JS.string_of_Z. destruct z as [| p | p]; [reflexivity | | lia].
  simpl. unfold NilZero.string_of_uint.
  destruct (Pos.to_uint p); try reflexivity; apply string_of_uint_digits.
Qed.

Lemma string_of_Z_inj (a b : Z) : JS.string_of_Z a = JS.string_of_Z b -> a = b.
Proof.
  unfold JS.string_of_Z. intros H.
  assert (Hnil : forall z, Z.to_int z <> Decimal.Pos Decimal.Nil
                           /\ Z.to_int z <> Decimal.Neg Decimal.Nil).
  { intros [| p | p]; simpl; split; try discriminate;
      intros E; injection E as E; exact (DecimalPos.Unsigned.to_uint_nonnil p E). }
  apply (f_equal NilZero.int_of_string) in H.
  rewrite !NilZero.isi in H by apply Hnil.
  injection H as H. apply DecimalZ.to_int_inj, H.
Qed.

Lemma append_cancel_l (a x y : string) : a ++ x = a ++ y -> x = y.
Proof. induction a as [| c a IH]; simpl; intros H; [exact H | injection H as H; auto]. Qed.

(** A run of digits ends at the first dash. *)
Lemma digits_until_dash (a b x y : string) :
  all_digits a = true -> all_digits b = true ->
  a ++ String "-" x = b ++ String "-" y -> a = b.
Proof.
  revert b. induction a as [| c a IH]; intros [| c' b] Ha Hb H; simpl in *.
  - reflexivity.
  - injection H as <- _. discriminate Hb.
  - injection H as -> _. discriminate Ha.
  - injection H as <- H.
    apply andb_prop in Ha, Hb. f_equal. apply IH; tauto.
Qed.

Section GeneratorFacts.
Variable entropy : Backend.Entropy.

Lemma transaction_at_eq accountType today i k :
  fst (Backend.transaction_at entropy accountType today i k)
  = let r := Backend.randoms entropy (Backend.drawn k) in
    let r' := Backend.randoms entropy (S (Backend.drawn k)) in
    let r'' := Backend.randoms entropy (S (S (Backend.drawn k))) in
    let isCredit :=
      match accountType with
      | Backend.Savings => Backend.Q_gt r (2 # 10)
      | Backend.Checking => Backend.Q_gt r (8 # 10)
      end in
    {| Backend.id :=
         Backend.AccountType_name accountType ++ "-" ++ JS.string_of_Z (Z.of_nat i)
           ++ "-" ++ JS.string_of_Z (Backend.clock entropy (Backend.read k));
       Backend.date := today - Z.of_nat i * 24 * 60 * 60 * 1000;
       Backend.description :=
         nth (Z.to_nat
                (Qfloor (r' * inject_Z
                                (Z.of_nat (List.length (Backend.descriptions accountType))))))
           (Backend.descriptions accountType) "";
       Backend.amount := Backend.toFixed2 (r'' * (if isCredit then 500 else 200) + 5);
       Backend.type := if isCredit then Backend.credit else Backend.debit |}.
Proof. reflexivity. Qed.

Lemma push_from_app accountType today remaining :
  forall i transactions k,
    fst (Backend.push_from entropy accountType today remaining i transactions k)
    = (transactions
         ++ fst (Backend.push_from entropy accountType today remaining i [] k))%list.
Proof.
  induction remaining as [| n IH]; intros i transactions k; simpl.
  - symmetry. apply app_nil_r.
  - unfold Backend.bind at 1 2.
    destruct (Backend.transaction_at entropy accountType today i k) as [tx k'].
    rewrite (IH (S i) (transactions ++ [tx])%list), (IH (S i) ([] ++ [tx])%list).
    rewrite <- app_assoc. reflexivity.
Qed.

Lemma push_from_S accountType today remaining i transactions k :
  fst (Backend.push_from entropy accountType today (S remaining) i transactions k)
  = fst (Backend.push_from entropy accountType today remaining (S i)
           (transactions ++ [fst (Backend.transaction_at entropy accountType today i k)])
           (snd (Backend.transaction_at entropy accountType today i k))).
Proof.
  cbn [Backend.push_from]. unfold Backend.bind at 1.
  destruct (Backend.transaction_at entropy accountType today i k); reflexivity.
Qed.

(** The transaction at position [j] of the loop's output is the one the
    body builds for index [i + j]. *)
Lemma push_from_nth accountType today remaining :
  forall i k j tx,
    nth_error (fst (Backend.push_from entropy accountType today remaining i [] k)) j
      = Some tx ->
    exists k', tx = fst (Backend.transaction_at entropy accountType today (i + j) k').
Proof.
  induction remaining as [| n IH]; intros i k j tx.
  - destruct j; discriminate.
  - rewrite push_from_S, push_from_app.
    destruct j as [| j]; cbn [app nth_error].
    + intros H. injection H as <-. exists k. rewrite Nat.add_0_r. reflexivity.
    + intros H. destruct (IH (S i) _ j tx H) as [k' ->].
      exists k'. f_equal. f_equal. lia.
Qed.

Lemma generateRandomTransactions_nth accountType count k j tx :
  nth_error (fst (Backend.generateRandomTransactions entropy accountType count k)) j
    = Some tx ->
  exists k',
    tx = fst (Backend.transaction_at entropy accountType
                (Backend.clock entropy (Backend.read k)) j k').
Proof.
  unfold Backend.generateRandomTransactions, Backend.bind. simpl.
  intros H. apply push_from_nth in H. exact H.
Qed.

(** X1. A generated list is newest first, one transaction a day: the
    transaction at position [j] is dated [j] days before the reading of the
    clock that the generation starts with. *)
Theorem generateRandomTransactions_dates accountType count k j tx :
  nth_error (fst (Backend.generateRandomTransactions entropy accountType count k)) j
    = Some tx ->
  Backend.date tx = Backend.clock entropy (Backend.read k) - Z.of_nat j * 86400000.
Proof.
  intros H. destruct (generateRandomTransactions_nth _ _ _ _ _ H) as [k' ->].
  rewrite transaction_at_eq. simpl. lia.
Qed.


Lemma generated_id accountType count k j tx :
  nth_error (fst (Backend.generateRandomTransactions entropy accountType count k)) j
    = Some tx ->
  exists now,
    Backend.id tx
    = Backend.AccountType_name accountType ++ "-" ++ JS.string_of_Z (Z.of_nat j)
        ++ "-" ++ JS.string_of_Z now.
Proof.
  intros H. destruct (generateRandomTransactions_nth _ _ _ _ _ H) as [k' ->].
  rewrite transaction_at_eq. eexists. reflexivity.
Qed.

Lemma generated_In accountType count k tx :
  In tx (fst (Backend.generateRandomTransactions entropy accountType count k)) ->
  exists j k',
    tx = fst (Backend.transaction_at entropy accountType
                (Backend.clock entropy (Backend.read k)) j k').
Proof.
  intros H. apply In_nth_error in H. destruct H as [j H].
  exists j. exact (generateRandomTransactions_nth _ _ _ _ _ H).
Qed.

(** Two transactions of one generated list with the same id sit at the
    same index. *)
Lemma generated_id_index accountType count k i j tx tx' :
  nth_error (fst (Backend.generateRandomTransactions entropy accountType count k)) i
    = Some tx ->
  nth_error (fst (Backend.generateRandomTransactions entropy accountType count k)) j
    = Some tx' ->
  Backend.id tx = Backend.id tx' -> i = j.
Proof.
  intros Hi Hj Hid.
  destruct (generated_id _ _ _ _ _ Hi) as [now Ei].
  destruct (generated_id _ _ _ _ _ Hj) as [now' Ej].
  rewrite Ei, Ej in Hid.
  apply append_cancel_l in Hid. simpl in Hid. injection Hid as Hid.
  apply digits_until_dash in Hid; try (apply string_of_Z_digits; lia).
  apply string_of_Z_inj in Hid. lia.
Qed.

Lemma generated_ids_NoDup accountType count k :
  NoDup (map Backend.id
           (fst (Backend.generateRandomTransactions entropy accountType count k))).
Proof.
  apply NoDup_nth_error. intros i j Hi Hij.
  rewrite length_map in Hi. rewrite !nth_error_map in Hij.
  destruct (nth_error _ i) as [tx |] eqn:Ei; [| apply nth_error_None in Ei; lia].
  destruct (nth_error _ j) as [tx' |] eqn:Ej; [| discriminate Hij].
  simpl in Hij. injection Hij as Hij.
  exact (generated_id_index _ _ _ _ _ _ _ Ei Ej Hij).
Qed.

Lemma mockData_lists :
  exists k,
    Backend.checking (Backend.mockData entropy)
    = fst (Backend.generateRandomTransactions entropy Backend.Checking 20
             {| Backend.drawn := 0; Backend.read := 0 |})
    /\ Backend.savings (Backend.mockData entropy)
       = fst (Backend.generateRandomTransactions entropy Backend.Savings 15 k).
Proof.
  unfold Backend.mockData, Backend.bind.
  destruct (Backend.generateRandomTransactions entropy Backend.Checking 20 _) as [c k].
  exists k.
  destruct (Backend.generateRandomTransactions entropy Backend.Savings 15 k) as [s k'].
  split; reflexivity.
Qed.

Lemma generated_ids_apart count count' k k' id :
  In id (map Backend.id
           (fst (Backend.generateRandomTransactions entropy Backend.Checking count k))) ->
  ~ In id (map Backend.id
             (fst (Backend.generateRandomTransactions entropy Backend.Savings count' k'))).
Proof.
  intros Hc Hs.
  apply in_map_iff in Hc, Hs.
  destruct Hc as (tx & <- & Hc). destruct Hs as (tx' & Hid & Hs).
  apply In_nth_error in Hc, Hs. destruct Hc as [i Hc]. destruct Hs as [j Hs].
  destruct (generated_id _ _ _ _ _ Hc) as [now Ec].
  destruct (generated_id _ _ _ _ _ Hs) as [now' Es].
  rewrite Ec, Es in Hid. discriminate Hid.
Qed.

(** X2. The ids of the thirty-five mock transactions are pairwise
    distinct. *)
Theorem mockData_ids_distinct :
  NoDup (map Backend.id
           (Backend.checking (Backend.mockData entropy)
              ++ Backend.savings (Backend.mockData entropy))).
Proof.
  destruct mockData_lists as (k & -> & ->).
  rewrite map_app.
  apply NoDup_app; [apply generated_ids_NoDup | apply generated_ids_NoDup |].
  intros id. apply generated_ids_apart.
Qed.

Lemma Qfloor_unique (y : Q) (n : Z) :
  (inject_Z n <= y)%Q -> (y < inject_Z (n + 1))%Q -> Qfloor y = n.
Proof.
  intros Hlo Hhi.
  pose proof (Qfloor_le y) as H1. pose proof (Qlt_floor y) as H2.
  assert (Qfloor y < n + 1).
  { rewrite Zlt_Qlt. apply Qle_lt_trans with y; assumption. }
  assert (n < Qfloor y + 1).
  { rewrite Zlt_Qlt. apply Qle_lt_trans with y; assumption. }
  lia.
Qed.

Lemma toFixed2_bounds (x : Q) (lo hi : Z) :
  (inject_Z lo <= x)%Q -> (x <= inject_Z hi)%Q ->
  (inject_Z lo <= Backend.toFixed2 x)%Q /\ (Backend.toFixed2 x <= inject_Z hi)%Q.
Proof.
  intros Hlo Hhi. unfold Backend.toFixed2.
  assert (Hscale : forall a b : Q, (a <= b)%Q -> (a * 100 + (1 # 2) <= b * 100 + (1 # 2))%Q)
    by (intros; lra).
  assert (Hhalf : forall n, Qfloor (inject_Z n * 100 + (1 # 2)) = n * 100).
  { intros n. apply Qfloor_unique.
    - rewrite inject_Z_mult. change (inject_Z 100) with 100%Q.
      generalize (inject_Z n). intros q. lra.
    - rewrite inject_Z_plus, inject_Z_mult.
      change (inject_Z 100) with 100%Q. change (inject_Z 1) with 1%Q.
      generalize (inject_Z n). intros q. lra. }
  assert (H1 : lo * 100 <= Qfloor (x * 100 + (1 # 2))).
  { rewrite <- (Hhalf lo). apply Qfloor_resp_le, Hscale, Hlo. }
  assert (H2 : Qfloor (x * 100 + (1 # 2)) <= hi * 100).
  { rewrite <- (Hhalf hi). apply Qfloor_resp_le, Hscale, Hhi. }
  set (n := Qfloor (x * 100 + (1 # 2))) in *.
  unfold Qle. cbn [Qnum Qden inject_Z]. lia.
Qed.

(** X3. Rounding to hundredths a second time changes nothing. *)
Theorem toFixed2_idempotent (x : Q) :
  Backend.toFixed2 (Backend.toFixed2 x) = Backend.toFixed2 x.
Proof.
  unfold Backend.toFixed2. f_equal.
  set (n := Qfloor (x * 100 + (1 # 2))).
  unfold Qfloor, Qplus, Qmult. simpl.
  symmetry. apply (Z.div_unique _ 200 n 100); lia.
Qed.


Lemma stored_generated key :
  exists k,
    Bank.stored entropy key
    = fst (Backend.generateRandomTransactions entropy key
             (Z.to_nat (Bank.stored_count key)) k).
Proof.
  destruct mockData_lists as (k & Hc & Hs).
  destruct key; [eexists; exact Hc | exists k; exact Hs].
Qed.

Lemma unit_interval_scaled (r : Q) (scale : Z) :
  (0 <= r)%Q -> (r < 1)%Q -> 0 <= scale ->
  (inject_Z 5 <= r * inject_Z scale + 5)%Q
  /\ (r * inject_Z scale + 5 <= inject_Z (scale + 5))%Q.
Proof.
  intros H0 H1 Hs.
  assert (H : (0 <= inject_Z scale)%Q)
    by (change 0%Q with (inject_Z 0); rewrite <- Zle_Qle; exact Hs).
  rewrite inject_Z_plus. change (inject_Z 5) with 5%Q.
  generalize dependent (inject_Z scale). intros q Hq.
  split; nra.
Qed.

(** X4. With every draw of [Math.random()] in [0, 1), each mock amount is
    between 5 and 505, and a debit at most 205. *)
Theorem mockData_amounts key tx :
  (forall n, (0 <= Backend.randoms entropy n)%Q /\ (Backend.randoms entropy n < 1)%Q) ->
  In tx (Bank.stored entropy key) ->
  (5 <= Backend.amount tx)%Q
  /\ (Backend.amount tx <= 505)%Q
  /\ (Backend.type tx = Backend.debit -> (Backend.amount tx <= 205)%Q).
Proof.
  intros Hunit Hin.
  destruct (stored_generated key) as [k Hk]. rewrite Hk in Hin.
  destruct (generated_In _ _ _ _ Hin) as (j & k' & ->).
  rewrite transaction_at_eq. cbv zeta.
  cbn [Backend.amount Backend.type].
  destruct (Hunit (S (S (Backend.drawn k')))) as [H0 H1].
  set (r := Backend.randoms entropy (S (S (Backend.drawn k')))) in *.
  destruct (unit_interval_scaled r 500 H0 H1 ltac:(lia)) as [Hlo Hhi].
  destruct (unit_interval_scaled r 200 H0 H1 ltac:(lia)) as [Hlo' Hhi'].
  match goal with
  | |- context [if ?b then _ else _] => destruct b
  end.
  - destruct (toFixed2_bounds _ 5 505 Hlo Hhi) as [A B].
    split; [exact A | split; [exact B | discriminate]].
  - destruct (toFixed2_bounds _ 5 205 Hlo' Hhi') as [A B].
    split; [exact A | split; [| intros _; exact B]].
    apply Qle_trans with (inject_Z 205); [exact B | discriminate].
Qed.

(** X5. With every draw in [0, 1), each mock description is one of the
    descriptions of its account type. *)
Theorem mockData_descriptions key tx :
  (forall n, (0 <= Backend.randoms entropy n)%Q /\ (Backend.randoms entropy n < 1)%Q) ->
  In tx (Bank.stored entropy key) ->
  In (Backend.description tx) (Backend.descriptions key).
Proof.
  intros Hunit Hin.
  destruct (stored_generated key) as [k Hk]. rewrite Hk in Hin.
  destruct (generated_In _ _ _ _ Hin) as (j & k' & ->).
  rewrite transaction_at_eq. cbv zeta. cbn [Backend.description].
  destruct (Hunit (S (Backend.drawn k'))) as [H0 H1].
  set (r := Backend.randoms entropy (S (Backend.drawn k'))) in *.
  assert (Hlen : (0 < List.length (Backend.descriptions key))%nat)
    by (destruct key; simpl; lia).
  set (len := List.length (Backend.descriptions key)) in *.
  apply nth_In. fold len.
  assert (Hq : (0 < inject_Z (Z.of_nat len))%Q).
  { change 0%Q with (inject_Z 0). rewrite <- Zlt_Qlt. lia. }
  assert (Hfloor : Qfloor (r * inject_Z (Z.of_nat len)) < Z.of_nat len).
  { rewrite Zlt_Qlt. apply Qle_lt_trans with (r * inject_Z (Z.of_nat len))%Q.
    - apply Qfloor_le.
    - generalize dependent (inject_Z (Z.of_nat len)). intros q Hq.
      assert (Hgap : (0 < (1 - r) * q)%Q) by (apply Qmult_lt_0_compat; lra).
      lra. }
  lia.
Qed.


Lemma firstn_prefix {A : Type} (n : nat) (l : list A) :
  exists rest, l = (firstn n l ++ rest)%list.
Proof. exists (skipn n l). symmetry. apply firstn_skipn. Qed.

(** X6. Whatever the limit, the history of a stored account type is a
    prefix of the stored list: the newest transactions first, none left
    out in between, none invented. *)
Theorem getMockTransactionHistory_prefix accountType key limit :
  Conversation.keyof accountType = Some key ->
  exists history rest,
    Backend.getMockTransactionHistory entropy accountType limit = JS.Normal history
    /\ Bank.stored entropy key = (history ++ rest)%list.
Proof.
  intros Hkey. rewrite (getMockTransactionHistory_key entropy _ _ _ Hkey).
  unfold JS.slice0.
  destruct (firstn_prefix
              (Z.to_nat
                 (let n := match limit with Some n => n | None => 10 end in
                  let len := Z.of_nat (List.length (Bank.stored entropy key)) in
                  if n <? 0 then Z.max (len + n) 0 else Z.min n len))
              (Bank.stored entropy key)) as [rest Hrest].
  eexists. exists rest. split; [reflexivity | exact Hrest].
Qed.

(** X7. A larger limit only adds transactions at the end of the history. *)
Theorem getMockTransactionHistory_monotone accountType key (m n : Z) :
  Conversation.keyof accountType = Some key ->
  0 <= m <= n ->
  exists shorter longer more,
    Backend.getMockTransactionHistory entropy accountType (Some m) = JS.Normal shorter
    /\ Backend.getMockTransactionHistory entropy accountType (Some n) = JS.Normal longer
    /\ longer = (shorter ++ more)%list.
Proof.
  intros Hkey Hmn.
  rewrite !(getMockTransactionHistory_key entropy _ _ _ Hkey).
  rewrite !slice0_nonneg by lia.
  set (len := Z.of_nat (List.length (Bank.stored entropy key))).
  destruct (firstn_prefix (Z.to_nat (Z.min m len))
              (firstn (Z.to_nat (Z.min n len)) (Bank.stored entropy key)))
    as [more Hmore].
  rewrite firstn_firstn in Hmore.
  replace (Init.Nat.min (Z.to_nat (Z.min m len)) (Z.to_nat (Z.min n len)))
    with (Z.to_nat (Z.min m len)) in Hmore by lia.
  do 2 eexists. exists more. split; [reflexivity | split; [reflexivity | exact Hmore]].
Qed.

(** X8. A negative limit drops that many transactions from the end of the
    stored list, down to none. *)
Theorem getMockTransactionHistory_negative accountType key (n : Z) :
  Conversation.keyof accountType = Some key ->
  n < 0 ->
  exists history,
    Backend.getMockTransactionHistory entropy accountType (Some n) = JS.Normal history
    /\ Z.of_nat (List.length history) = Z.max (Bank.stored_count key + n) 0.
Proof.
  intros Hkey Hn. rewrite (getMockTransactionHistory_key entropy _ _ _ Hkey).
  eexists. split; [reflexivity |].
  rewrite slice0_negative by assumption. rewrite length_firstn.
  pose proof (stored_length entropy key). lia.
Qed.

(** The backend throws exactly on the property names that [mockData]
    inherits; on every other string it returns an array. *)
Lemma getMockTransactionHistory_throws accountType limit :
  (exists e, Backend.getMockTransactionHistory entropy accountType limit = JS.Throw e)
  <-> In accountType JS.Object_prototype.
Proof.
  unfold Backend.getMockTransactionHistory, Backend.mockData_get.
  destruct (String.eqb_spec accountType "checking") as [-> | Hc].
  - split; [intros [e H]; discriminate H |].
    intros H. simpl in H.
    repeat (destruct H as [H | H]; [discriminate H |]). contradiction.
  - destruct (String.eqb_spec accountType "savings") as [-> | Hs].
    + split; [intros [e H]; discriminate H |].
      intros H. simpl in H.
    repeat (destruct H as [H | H]; [discriminate H |]). contradiction.
    + unfold JS.inherited.
      destruct (existsb (String.eqb accountType) JS.Object_prototype) eqn:E.
      * split; [intros _ | intros _; eexists; reflexivity].
        apply existsb_exists in E. destruct E as (name & Hin & Heq).
        apply String.eqb_eq in Heq. subst. exact Hin.
      * split; [intros [e H]; discriminate H |].
        intros Hin. exfalso.
        assert (existsb (String.eqb accountType) JS.Object_prototype = true).
        { apply existsb_exists. exists accountType. split; [exact Hin | apply String.eqb_refl]. }
        congruence.
Qed.

End GeneratorFacts.

(** ** Tool calls of several function calls *)


Section Batches.
Import Conversation Bank Frame.
Variable entropy : Backend.Entropy.

Lemma switch_outside_bank accounts c fc c' result :
  switch entropy accounts c fc = JS.Normal (c', result) ->
  outside_bank c' = outside_bank c.
Proof.
  unfold switch.
  repeat match goal with
    | |- context [if ?b then _ else _] => destruct b
    | |- context [match ?x with _ => _ end] => destruct x
    end;
    intros H; try discriminate H; injection H as <- <-; reflexivity.
Qed.

Lemma for_of_outside_bank p accounts functionCalls :
  forall c, outside_bank (component (for_of entropy p accounts c functionCalls))
            = outside_bank c.
Proof.
  induction functionCalls as [| fc rest IH]; intros c; cbn [for_of]; [reflexivity |].
  destruct (switch entropy accounts c fc) as [[c1 result] | e] eqn:Hs; cbn [component];
    [| reflexivity].
  rewrite IH. exact (switch_outside_bank _ _ _ _ _ Hs).
Qed.

(** X9. Whatever the tool call, [handleToolCall] changes nothing of the
    component but the accounts, the transactions and the viewed history. *)
Theorem handleToolCall_outside_bank accounts c toolCall :
  outside_bank (component (handleToolCall entropy accounts c toolCall)) = outside_bank c.
Proof.
  unfold handleToolCall. destruct (sessionPromiseRef c); [apply for_of_outside_bank |].
  reflexivity.
Qed.


Lemma switch_throws accounts c fc :
  (exists e, switch entropy accounts c fc = JS.Throw e) <-> looks_up_inherited fc.
Proof.
  unfold looks_up_inherited. split.
  - intros [e H]. revert H. unfold switch.
    destruct (String.eqb_spec (GenAI.name fc) "getAccountBalance") as [E | _].
    { destruct (keyof _); discriminate. }
    destruct (String.eqb_spec (GenAI.name fc) "transferFunds") as [E | _].
    { destruct (keyof _); [destruct (keyof _) |]; try discriminate.
      destruct (_ <? _); discriminate. }
    destruct (String.eqb_spec (GenAI.name fc) "getTransactionHistory") as [E | _];
      [| discriminate].
    destruct (Backend.getMockTransactionHistory entropy _ _) as [h | e'] eqn:Hg;
      [discriminate |].
    intros _. split; [exact E |].
    apply (getMockTransactionHistory_throws entropy _ (GenAI.limit (GenAI.args fc))).
    exists e'. exact Hg.
  - intros [Hn Hin].
    apply (getMockTransactionHistory_throws entropy _ (GenAI.limit (GenAI.args fc))) in Hin.
    destruct Hin as [e He].
    exists e. rewrite (switch_getTransactionHistory entropy accounts c fc Hn).
    cbv zeta. rewrite He. reflexivity.
Qed.

Lemma for_of_app p accounts before :
  forall c after,
    thrown (for_of entropy p accounts c before) = None ->
    for_of entropy p accounts c (before ++ after)
    = let first := for_of entropy p accounts c before in
      let second := for_of entropy p accounts (component first) after in
      {| component := component second;
         effects := (effects first ++ effects second)%list;
         thrown := thrown second |}.
Proof.
  induction before as [| fc rest IH]; intros c after Hcalm; cbn [for_of app] in *.
  - cbv zeta. cbn [component effects thrown app].
    destruct (for_of entropy p accounts c after); reflexivity.
  - destruct (switch entropy accounts c fc) as [[c1 result] | e];
      cbn [component effects thrown] in *; [| discriminate Hcalm].
    rewrite (IH c1 after Hcalm). reflexivity.
Qed.

(** X10. In a session, a tool call none of whose function calls throws is
    answered call by call: one response per call, in the order of the
    calls, each with the id and the name of its call. *)
Theorem handleToolCall_answers_each accounts c p toolCall :
  sessionPromiseRef c = Some p ->
  thrown (handleToolCall entropy accounts c toolCall) = None ->
  Forall2 (fun fc sent => exists result, sent = response_to p fc result)
    toolCall (effects (handleToolCall entropy accounts c toolCall)).
Proof.
  intros Hp. unfold handleToolCall. rewrite Hp. clear Hp.
  revert c. induction toolCall as [| fc rest IH]; intros c Hcalm; cbn [for_of] in *.
  - constructor.
  - destruct (switch entropy accounts c fc) as [[c1 result] | e]; cbn in *;
      [| discriminate Hcalm].
    constructor; [exists result; reflexivity | apply IH, Hcalm].
Qed.

(** X11. In a session, [handleToolCall] throws exactly when one of the calls
    looks up the history of a property name that [mockData] inherits. *)
Theorem handleToolCall_throws_iff accounts c p toolCall :
  sessionPromiseRef c = Some p ->
  thrown (handleToolCall entropy accounts c toolCall) <> None
  <-> Exists looks_up_inherited toolCall.
Proof.
  intros Hp. unfold handleToolCall. rewrite Hp. clear Hp.
  revert c. induction toolCall as [| fc rest IH]; intros c; cbn [for_of].
  - split; [intros H; contradiction | intros H; inversion H].
  - destruct (switch entropy accounts c fc) as [[c1 result] | e] eqn:Hs; cbn [thrown].
    + rewrite IH. split; [intros H; right; exact H |].
      intros H. inversion H as [? ? Hbad | ? ? Hlater]; subst; [| exact Hlater].
      apply (switch_throws accounts c fc) in Hbad. destruct Hbad as [e He]. congruence.
    + split; [intros _ | intros _; discriminate].
      left. apply (switch_throws accounts c fc). exists e. exact Hs.
Qed.

(** X12. The call that throws ends the tool call: it gets no response, and
    the calls after it are neither run nor answered. *)
Theorem handleToolCall_stops_at_throw accounts c p before fc after :
  sessionPromiseRef c = Some p ->
  thrown (handleToolCall entropy accounts c before) = None ->
  looks_up_inherited fc ->
  let out := handleToolCall entropy accounts c (before ++ fc :: after) in
  component out = component (handleToolCall entropy accounts c before)
  /\ effects out = effects (handleToolCall entropy accounts c before)
  /\ thrown out <> None.
Proof.
  intros Hp Hcalm Hbad out. subst out. revert Hcalm.
  unfold handleToolCall. rewrite Hp. intros Hcalm.
  rewrite (for_of_app p accounts before c (fc :: after) Hcalm). cbv zeta.
  cbn [for_of].
  apply (switch_throws accounts (component (for_of entropy p accounts c before)) fc) in Hbad.
  destruct Hbad as [e He]. rewrite He. cbn.
  split; [reflexivity | split; [apply app_nil_r | discriminate]].
Qed.

End Batches.

(** ** The accounts *)

Section Money.
Import Conversation Bank Frame.
Variable entropy : Backend.Entropy.

(** What the [switch] can do to the accounts: nothing, or the update of a
    transfer that passed the two checks. *)
Lemma switch_accounts accounts c fc c' result :
  switch entropy accounts c fc = JS.Normal (c', result) ->
  Conversation.accounts c' = Conversation.accounts c
  \/ exists from_key to_key,
       GenAI.name fc = "transferFunds"
       /\ keyof (JS.toLowerCase (GenAI.fromAccount (GenAI.args fc))) = Some from_key
       /\ keyof (JS.toLowerCase (GenAI.toAccount (GenAI.args fc))) = Some to_key
       /\ GenAI.amount (GenAI.args fc) <= get accounts from_key
       /\ Conversation.accounts c'
          = assign to_key (get (Conversation.accounts c) to_key + GenAI.amount (GenAI.args fc))
              (assign from_key
                 (get (Conversation.accounts c) from_key - GenAI.amount (GenAI.args fc))
                 (Conversation.accounts c)).
Proof.
  destruct (String.eqb_spec (GenAI.name fc) "transferFunds") as [Hn | Hn].
  - rewrite (switch_transferFunds entropy accounts c fc Hn). cbv zeta.
    destruct (keyof (JS.toLowerCase (GenAI.fromAccount (GenAI.args fc))))
      as [from_key |] eqn:Hfrom;
      [destruct (keyof (JS.toLowerCase (GenAI.toAccount (GenAI.args fc))))
         as [to_key |] eqn:Hto;
       [destruct (Z.ltb_spec (get accounts from_key) (GenAI.amount (GenAI.args fc)))
          as [Hlt | Hge] |] |];
      intros H; injection H as <- <-; try (left; reflexivity).
    right. exists from_key, to_key. repeat split; assumption.
  - unfold switch. apply String.eqb_neq in Hn. rewrite Hn.
    repeat match goal with
      | |- context [if ?b then _ else _] => destruct b
      | |- context [match ?x with _ => _ end] => destruct x
      end;
      intros H; try discriminate H; injection H as <- <-; left; reflexivity.
Qed.

Lemma keyof_same from to key :
  keyof from = Some key -> keyof to = Some key -> from = to.
Proof. intros Hf Ht. apply keyof_Some in Hf, Ht. congruence. Qed.

Lemma switch_total accounts c fc c' result :
  ~ transfers_to_itself fc ->
  switch entropy accounts c fc = JS.Normal (c', result) ->
  total (Conversation.accounts c') = total (Conversation.accounts c).
Proof.
  intros Hother Hs.
  destruct (switch_accounts _ _ _ _ _ Hs)
    as [-> | (from_key & to_key & Hn & Hfrom & Hto & _ & ->)]; [reflexivity |].
  assert (from_key <> to_key).
  { intros ->. apply Hother. split; [exact Hn | exact (keyof_same _ _ _ Hfrom Hto)]. }
  unfold total. destruct from_key, to_key; try congruence; simpl; lia.
Qed.

Lemma moved_nonneg toolCall : 0 <= Numbers.moved toolCall.
Proof.
  induction toolCall as [| fc rest IH]; [reflexivity |].
  unfold Numbers.moved in *. cbn [map fold_right].
  destruct (GenAI.name fc =? "transferFunds")%string; lia.
Qed.

Lemma moved_cons fc rest :
  Numbers.moved (fc :: rest) = Numbers.moved [fc] + Numbers.moved rest.
Proof. unfold Numbers.moved. cbn [map fold_right]. lia. Qed.

(** A function call moves no balance by more than its amount. *)
Lemma switch_moved accounts c fc c' result key :
  switch entropy accounts c fc = JS.Normal (c', result) ->
  Z.abs (get (Conversation.accounts c') key)
  <= Z.abs (get (Conversation.accounts c) key) + Numbers.moved [fc].
Proof.
  intros Hs. pose proof (moved_nonneg [fc]) as Hpos.
  destruct (switch_accounts _ _ _ _ _ Hs)
    as [-> | (from_key & to_key & Hn & _ & _ & _ & ->)]; [lia |].
  unfold Numbers.moved. cbn [map fold_right]. rewrite Hn. cbn [String.eqb Ascii.eqb].
  change ("transferFunds" =? "transferFunds")%string with true. cbv iota.
  destruct from_key, to_key, key; simpl; lia.
Qed.

(** X13. For whole-number balances and amounts whose magnitudes (the two
    balances, and the amounts of the transfers of the call) sum to at most
    2^53, a tool call without a transfer from an account to itself leaves
    the sum of checking and savings as it was, however many transfers it
    makes and whether or not it ends in an exception, and no balance leaves
    the range in which the source adds and subtracts whole numbers
    exactly. *)
Theorem handleToolCall_conserves_total accounts c toolCall :
  Forall (fun fc => ~ transfers_to_itself fc) toolCall ->
  Z.abs (checking (Conversation.accounts c)) + Z.abs (savings (Conversation.accounts c))
    + Numbers.moved toolCall <= Numbers.exact_below ->
  let after :=
    Conversation.accounts (component (handleToolCall entropy accounts c toolCall)) in
  total after = total (Conversation.accounts c)
  /\ forall key,
       Z.abs (get after key)
       <= Z.abs (get (Conversation.accounts c) key) + Numbers.moved toolCall
       <= Numbers.exact_below.
Proof.
  intros Hall Hrange after.
  assert (Hmoved : forall key,
             Z.abs (get after key)
             <= Z.abs (get (Conversation.accounts c) key) + Numbers.moved toolCall).
  { subst after. clear Hrange Hall. unfold handleToolCall.
    pose proof (moved_nonneg toolCall) as Hpos.
    destruct (sessionPromiseRef c) as [p |]; [| intros key; cbn [component]; lia].
    clear Hpos. revert c.
    induction toolCall as [| fc rest IH]; intros c key; cbn [for_of component];
      [cbn; lia |].
    rewrite moved_cons. pose proof (moved_nonneg [fc]). pose proof (moved_nonneg rest).
    destruct (switch entropy accounts c fc) as [[c1 result] | e] eqn:Hs; cbn [component];
      [| lia].
    specialize (IH c1 key). pose proof (switch_moved _ _ _ _ _ key Hs). lia. }
  split.
  - subst after. clear Hrange Hmoved. unfold handleToolCall.
    destruct (sessionPromiseRef c) as [p |]; [| reflexivity].
    revert c. induction Hall as [| fc rest Hfc Hrest IH]; intros c; cbn [for_of];
      [reflexivity |].
    destruct (switch entropy accounts c fc) as [[c1 result] | e] eqn:Hs; cbn [component];
      [| reflexivity].
    rewrite IH. exact (switch_total _ _ _ _ _ Hfc Hs).
  - intros key. split; [apply Hmoved |].
    pose proof (moved_nonneg toolCall).
    destruct key; cbn [get]; lia.
Qed.

(** X14. A history lookup of an account type that is neither stored nor
    inherited is answered as a success with no transactions, and shows the
    empty history of that name. *)
Theorem getTransactionHistory_unknown_account accounts c p fc :
  sessionPromiseRef c = Some p ->
  GenAI.name fc = "getTransactionHistory" ->
  keyof (JS.toLowerCase (GenAI.accountType (GenAI.args fc))) = None ->
  ~ In (JS.toLowerCase (GenAI.accountType (GenAI.args fc))) JS.Object_prototype ->
  handleToolCall entropy accounts c [fc]
  = {| component :=
         setViewingHistory (Some (GenAI.accountType (GenAI.args fc)))
           (setTransactions [] c);
       effects := [response_to p fc (history_result true 0)];
       thrown := None |}.
Proof.
  intros Hp Hn Hkey Hown.
  apply handleToolCall_one; [exact Hp |].
  rewrite (switch_getTransactionHistory entropy accounts c fc Hn). cbv zeta.
  rewrite getMockTransactionHistory_unknown; [reflexivity | exact Hkey |].
  unfold JS.inherited.
  destruct (existsb _ JS.Object_prototype) eqn:E; [| reflexivity].
  exfalso. apply Hown. apply existsb_exists in E.
  destruct E as (name & Hin & Heq). apply String.eqb_eq in Heq. subst. exact Hin.
Qed.

(** X15. Run by the callback of the latest render, one function call with an
    amount that is not negative never takes a balance below zero. *)
Theorem handleToolCall_no_overdraft c fc :
  0 <= GenAI.amount (GenAI.args fc) ->
  0 <= checking (Conversation.accounts c) ->
  0 <= savings (Conversation.accounts c) ->
  let after :=
    Conversation.accounts
      (component (handleToolCall entropy (Conversation.accounts c) c [fc])) in
  0 <= checking after /\ 0 <= savings after.
Proof.
  intros Hamount Hc Hs after. subst after. unfold handleToolCall.
  destruct (sessionPromiseRef c) as [p |]; [| split; assumption].
  cbn [for_of].
  destruct (switch entropy (Conversation.accounts c) c fc) as [[c1 result] | e] eqn:Hsw;
    cbn [component]; [| split; assumption].
  destruct (switch_accounts _ _ _ _ _ Hsw)
    as [-> | (from_key & to_key & _ & _ & _ & Hle & ->)]; [split; assumption |].
  destruct from_key, to_key; simpl in *; lia.
Qed.

(** X16. Run by the callback of the latest render, a transfer between two
    different accounts reports as new from-balance the balance that the
    from-account has afterwards. *)
Theorem transferFunds_reports_new_balance c p fc from_key to_key :
  sessionPromiseRef c = Some p ->
  GenAI.name fc = "transferFunds" ->
  keyof (JS.toLowerCase (GenAI.fromAccount (GenAI.args fc))) = Some from_key ->
  keyof (JS.toLowerCase (GenAI.toAccount (GenAI.args fc))) = Some to_key ->
  from_key <> to_key ->
  GenAI.amount (GenAI.args fc) <= get (Conversation.accounts c) from_key ->
  let out := handleToolCall entropy (Conversation.accounts c) c [fc] in
  exists fromAccount toAccount,
    effects out
    = [response_to p fc
         (transfer_result true fromAccount toAccount (GenAI.amount (GenAI.args fc))
            (get (Conversation.accounts (component out)) from_key))].
Proof.
  intros Hp Hn Hfrom Hto Hne Hle out.
  destruct (transferFunds_between entropy (Conversation.accounts c) c p fc from_key to_key
              Hp Hn Hfrom Hto Hne Hle) as (Hdebit & _ & Heffects).
  subst out. rewrite Hdebit. do 2 eexists. exact Heffects.
Qed.

End Money.

(** ** Streams of messages *)


Section Streams.
Import Types Conversation Bank Transcript Session Shape.
Variable entropy : Backend.Entropy.

Lemma replace_last_shape who current prev :
  shape (replace_last who current prev) = shape prev.
Proof.
  destruct prev as [| last init _] using rev_ind; [reflexivity |].
  rewrite replace_last_snoc. destruct (Sender_eqb (sender last) who); [| reflexivity].
  unfold shape. rewrite !map_app, !removelast_last. reflexivity.
Qed.

Lemma transcriptions_shape content c :
  shape (transcript (transcriptions content c)) = shape (transcript c).
Proof.
  destruct (transcriptions_transcript content c) as (-> & _ & _). cbv zeta.
  destruct (GenAI.outputTranscription content), (GenAI.inputTranscription content),
    (GenAI.turnComplete content);
    repeat match goal with
      | |- context [if ?b then _ else _] => destruct b
      end;
    rewrite ?replace_last_shape; reflexivity.
Qed.

(** All that [handleMessage] can change in the transcript is the text of
    its last entry. *)
Lemma handleMessage_shape accounts c message :
  shape (transcript (component (handleMessage entropy accounts c message)))
  = shape (transcript c).
Proof.
  unfold handleMessage.
  assert (Hcalled : forall toolCall,
             transcript (component (handleToolCall entropy accounts c toolCall))
             = transcript c).
  { intros toolCall. apply (handleToolCall_frame entropy accounts c toolCall). }
  destruct (GenAI.toolCall message) as [toolCall |].
  - destruct (thrown (handleToolCall entropy accounts c toolCall));
      [rewrite Hcalled; reflexivity |].
    destruct (GenAI.serverContent message) as [content |];
      [| rewrite Hcalled; reflexivity].
    cbn [component]. rewrite transcriptions_shape, Hcalled. reflexivity.
  - cbn [thrown component].
    destruct (GenAI.serverContent message) as [content |]; [| reflexivity].
    cbn [component]. apply transcriptions_shape.
Qed.

Lemma output_chunk_step accounts c text init last :
  transcript c = (init ++ [last])%list ->
  sender last = Agent ->
  let c' := component (handleMessage entropy accounts c (output_chunk text)) in
  currentOutputTranscriptionRef c' = currentOutputTranscriptionRef c ++ text
  /\ currentInputTranscriptionRef c' = currentInputTranscriptionRef c
  /\ transcript c'
     = (init ++ [with_text last (currentOutputTranscriptionRef c ++ text)])%list.
Proof.
  intros Hsplit Hagent c'. subst c'. unfold output_chunk, content_only, handleMessage.
  cbn [GenAI.toolCall GenAI.serverContent thrown component].
  unfold chunk.
  destruct (transcriptions_transcript
              {| GenAI.outputTranscription := Some text; GenAI.inputTranscription := None;
                 GenAI.turnComplete := false |} c) as (Ht & Ho & Hi).
  cbv zeta in Ht, Ho, Hi.
  cbn [GenAI.outputTranscription GenAI.inputTranscription GenAI.turnComplete] in Ht, Ho, Hi.
  rewrite Ht, Ho, Hi, Hsplit, (replace_last_hit Agent _ init last Hagent).
  repeat split.
Qed.

Lemma append_assoc (a b c : string) : (a ++ b) ++ c = a ++ b ++ c.
Proof. induction a as [| x a IH]; simpl; [reflexivity | rewrite IH; reflexivity]. Qed.

(** X17. Chunks of output transcription that arrive one after the other add
    up: after them the accumulator, and the text of the Agent's last
    entry, hold what was accumulated before followed by the chunks in
    order. *)
Theorem output_chunks_accumulate accounts texts :
  forall c init last text,
    transcript c = (init ++ [last])%list ->
    sender last = Agent ->
    let c' := handleMessages entropy accounts c (map output_chunk (text :: texts)) in
    let accumulated :=
      currentOutputTranscriptionRef c ++ String.concat "" (text :: texts) in
    currentOutputTranscriptionRef c' = accumulated
    /\ transcript c' = (init ++ [with_text last accumulated])%list.
Proof.
  induction texts as [| next texts IH]; intros c init last text Hsplit Hagent.
  - cbv zeta. unfold handleMessages. cbn [map fold_left String.concat].
    destruct (output_chunk_step accounts c text init last Hsplit Hagent) as (Ho & _ & Ht).
    split; assumption.
  - destruct (output_chunk_step accounts c text init last Hsplit Hagent) as (Ho & _ & Ht).
    specialize (IH _ init _ next Ht Hagent).
    cbv zeta in IH |- *. unfold handleMessages in IH |- *.
    cbn [map fold_left] in IH |- *. destruct IH as (IHo & IHt).
    rewrite IHo, IHt, Ho.
    assert (E : (currentOutputTranscriptionRef c ++ text)
                  ++ String.concat "" (next :: texts)
                = currentOutputTranscriptionRef c
                    ++ String.concat "" (text :: next :: texts)).
    { rewrite append_assoc. reflexivity. }
    rewrite E. split; reflexivity.
Qed.

(** X18. The transcript keeps one entry per speaker, not one per turn: the
    first chunk after a completed turn replaces, in the Agent's last
    entry, everything the turn before had written there. *)
Theorem next_turn_overwrites accounts c text init last :
  transcript c = (init ++ [last])%list ->
  sender last = Agent ->
  let c' := handleMessages entropy accounts c [turn_complete; output_chunk text] in
  currentOutputTranscriptionRef c' = text
  /\ transcript c' = (init ++ [with_text last text])%list.
Proof.
  intros Hsplit Hagent c'. subst c'. unfold handleMessages. cbn [fold_left].
  set (c1 := component (handleMessage entropy accounts c turn_complete)).
  assert (H1 : currentOutputTranscriptionRef c1 = ""
               /\ exists last1,
                   transcript c1 = (init ++ [last1])%list
                   /\ sender last1 = Agent /\ Types.id last1 = Types.id last).
  { subst c1. unfold turn_complete, content_only, handleMessage.
    cbn [GenAI.toolCall GenAI.serverContent thrown component].
    unfold chunk.
    destruct (transcriptions_transcript
                {| GenAI.outputTranscription := None; GenAI.inputTranscription := None;
                   GenAI.turnComplete := true |} c) as (Ht & Ho & _).
    cbv zeta in Ht, Ho.
    cbn [GenAI.outputTranscription GenAI.inputTranscription GenAI.turnComplete] in Ht, Ho.
    rewrite Ht, Ho, Hsplit.
    split; [reflexivity |].
    assert (Huser : forall anything,
               replace_last User anything (init ++ [last]) = (init ++ [last])%list).
    { intros anything. apply replace_last_miss. congruence. }
    destruct (JS.truthy (JS.trim (currentInputTranscriptionRef c)));
      destruct (JS.truthy (JS.trim (currentOutputTranscriptionRef c)));
      rewrite ?Huser, ?(replace_last_hit Agent _ init last Hagent);
      eexists; (split; [reflexivity | split; [try exact Hagent | reflexivity]]);
      exact Hagent. }
  destruct H1 as (Hacc & last1 & Hsplit1 & Hagent1 & Hid1).
  destruct (output_chunk_step accounts c1 text init last1 Hsplit1 Hagent1) as (Ho & _ & Ht).
  rewrite Ho, Ht, Hacc. split; [reflexivity |].
  unfold with_text. rewrite Hid1, Hagent1, Hagent. reflexivity.
Qed.

End Streams.

(** ** The life of a session *)


Section Lifecycle2.
Import Types Conversation Bank Transcript Session Shape Reachable.

(** X19. Stopping twice is stopping once: the second [stopConversation]
    changes nothing and calls nothing. *)
Theorem stopConversation_idempotent (c : Component) :
  stopConversation (fst (stopConversation c)) = (fst (stopConversation c), []).
Proof. destruct c. vm_compute. reflexivity. Qed.


(** X20. A session that was started and opened is released in full by one
    [stopConversation], each object once, in the order in which the objects
    receive the calls: the tracks are stopped, the script processor and the
    stream source are disconnected, the input and the output context are
    closed, and last, from the reaction on the session promise, the session
    is closed. *)
Theorem started_session_is_released c stream input output promise opening :
  let started := fst (startConversation (succeeding stream input output promise) c) in
  let open := fst (fst (onopen opening started)) in
  snd (stopConversation open)
  = [ stop_tracks stream;
      disconnect_processor (createScriptProcessor opening);
      disconnect_source (createMediaStreamSource opening);
      close_context input; close_context output;
      close_session promise ].
Proof. destruct c. vm_compute. reflexivity. Qed.

(** X21. [startConversation] always empties the transcript, the transactions
    and the viewed history, and always keeps the accounts and the two
    accumulators. It ends connecting, without an error, exactly when all
    four steps of the [try] block succeed; otherwise it ends idle with the
    microphone message, whichever step failed. *)
Theorem startConversation_outcome (attempt : Attempt) (c : Component) :
  let c' := fst (startConversation attempt c) in
  transcript c' = [] /\ transactions c' = [] /\ viewingHistory c' = None
  /\ accounts c' = accounts c
  /\ currentInputTranscriptionRef c' = currentInputTranscriptionRef c
  /\ currentOutputTranscriptionRef c' = currentOutputTranscriptionRef c
  /\ ((exists stream input output promise,
          attempt = succeeding stream input output promise
          /\ status c' = connecting /\ error c' = None
          /\ sessionPromiseRef c' = Some promise)
      \/ ((forall stream input output promise,
              attempt <> succeeding stream input output promise)
          /\ status c' = idle /\ error c' = Some microphone_message
          /\ sessionPromiseRef c' = sessionPromiseRef c)).
Proof.
  destruct c.
  destruct attempt as [[stream | e1] [input | e2] [output | e3] [promise | e4]];
    cbv zeta; unfold startConversation, try_block; cbn;
    repeat (split; [reflexivity |]);
    try (left; exists stream, input, output, promise; repeat split; reflexivity);
    right; (split; [intros s i o p H; discriminate H | repeat split]).
Qed.


(** X22. What a failed start had acquired is never released: the next start
    overwrites the refs, and neither start nor the stop that follows stops
    the first stream or closes the first two contexts. *)
Theorem failed_start_leaks c stream input output e stream' input' output' promise' :
  stream' <> stream ->
  input' <> input -> input' <> output -> output' <> input -> output' <> output ->
  let failed := startConversation (failing_to_connect stream input output e) c in
  let started := startConversation (succeeding stream' input' output' promise') (fst failed) in
  let stopped := stopConversation (fst started) in
  mediaStreamRef (fst failed) = Some stream
  /\ mediaStreamRef (fst started) = Some stream'
  /\ forall call,
       In call (snd failed ++ snd started ++ snd stopped)%list ->
       call <> stop_tracks stream
       /\ call <> close_context input /\ call <> close_context output.
Proof.
  intros Hs Hii Hio Hoi Hoo. destruct c as [? ? ? ? ? ? ? ? ? ? ? ? [processor |] [source |] ? ?];
    vm_compute.
  all: split; [reflexivity | split; [reflexivity |]].
  all: intros call Hin.
  all: repeat (destruct Hin as [<- | Hin]);
    try contradiction; repeat split; congruence.
Qed.

(** X23. After [stopConversation] the late events of the old session are
    inert: an audio frame is not sent, and a tool call is neither run nor
    answered. *)
Theorem stopped_session_is_inert entropy accounts c pcmBlob toolCall :
  let stopped := fst (stopConversation c) in
  onaudioprocess pcmBlob stopped = []
  /\ handleToolCall entropy accounts stopped toolCall
     = {| component := stopped; effects := []; thrown := None |}.
Proof. destruct c. vm_compute. split; reflexivity. Qed.

(** X24. [onerror] always leaves an error message on a stopped component,
    and the [onclose] that follows the error changes nothing of it: the
    message stays, and nothing is called but the log. *)
Theorem onclose_after_onerror message c :
  let failed := fst (onerror message c) in
  error failed <> None /\ status failed = idle /\ isRecording failed = false
  /\ onclose failed = (failed, [console_log "Connection closed."]).
Proof.
  destruct c. cbv zeta. unfold onerror.
  destruct (includes (JS.toLowerCase message) "network error"
            || includes (JS.toLowerCase message) "not found");
    vm_compute; (split; [discriminate |]); repeat split.
Qed.

(** X25. After a start and [onopen] the transcript holds an empty entry of
    the User followed by an empty entry of the Agent; read off a clock
    that does not run backwards, their ids differ. *)
Theorem onopen_entries c stream input output promise opening :
  let started := fst (startConversation (succeeding stream input output promise) c) in
  let open := fst (fst (onopen opening started)) in
  transcript open
  = [ {| Types.id := JS.string_of_Z (now opening); sender := User; text := "" |};
      {| Types.id := JS.string_of_Z (now' opening + 1); sender := Agent; text := "" |} ]
  /\ status open = connected /\ isRecording open = true
  /\ (now opening <= now' opening ->
      JS.string_of_Z (now opening) <> JS.string_of_Z (now' opening + 1)).
Proof.
  destruct c. cbv zeta. split; [reflexivity | split; [reflexivity | split; [reflexivity |]]].
  intros Hclock H. apply string_of_Z_inj in H. lia.
Qed.

End Lifecycle2.

Section Reach.
Import Types Conversation Bank Transcript Session Shape Reachable Frame.
Variable entropy : Backend.Entropy.


Lemma handleMessages_shape accounts messages :
  forall c, shape (transcript (handleMessages entropy accounts c messages))
            = shape (transcript c).
Proof.
  unfold handleMessages.
  induction messages as [| message rest IH]; intros c; cbn [fold_left]; [reflexivity |].
  rewrite IH. apply handleMessage_shape.
Qed.

Lemma same_shape_snoc (l init : list Message) (last : Message) :
  shape l = shape (init ++ [last]) ->
  exists text, l = (init ++ [with_text last text])%list.
Proof.
  unfold shape. rewrite !map_app, removelast_last. cbn [map].
  intros H. injection H as Hid Hsender Hinit.
  destruct l as [| x l'] using rev_ind.
  - destruct init; discriminate Hid.
  - clear IHl'. rewrite removelast_last in Hinit. subst l'.
    rewrite !map_app in Hid, Hsender. cbn [map] in Hid, Hsender.
    apply app_inv_head in Hid, Hsender.
    injection Hid as Hid. injection Hsender as Hsender.
    exists (text x). unfold with_text. rewrite <- Hid, <- Hsender.
    destruct x; reflexivity.
Qed.

(** X26. Whatever messages arrive, an empty transcript stays empty, and in a
    transcript with entries only the text of the last entry can differ
    afterwards: no entry is added, removed or reordered, and every id,
    every sender and every earlier text stays. *)
Theorem handleMessages_change_last_text_only accounts c messages :
  let c' := handleMessages entropy accounts c messages in
  (transcript c = [] -> transcript c' = [])
  /\ (forall init last,
        transcript c = (init ++ [last])%list ->
        exists text, transcript c' = (init ++ [with_text last text])%list).
Proof.
  cbv zeta. pose proof (handleMessages_shape accounts messages c) as H. split.
  - intros Hnil. rewrite Hnil in H. unfold shape in H. cbn in H.
    injection H as Hid _ _. destruct (transcript _); [reflexivity | discriminate Hid].
  - intros init last Hsplit. rewrite Hsplit in H. exact (same_shape_snoc _ _ _ H).
Qed.

(** X27. After a restart the Agent's entry shows text of the session before:
    neither [stopConversation] nor [startConversation] empties the output
    accumulator, so the first chunk of the new session is appended to what
    the old session had accumulated. *)
Theorem restart_keeps_accumulated_text accounts c stream input output promise opening text :
  let stopped := fst (stopConversation c) in
  let started := fst (startConversation (succeeding stream input output promise) stopped) in
  let open := fst (fst (onopen opening started)) in
  let c' := component (handleMessage entropy accounts open (output_chunk text)) in
  transcript c'
  = [ {| Types.id := JS.string_of_Z (now opening); sender := User; text := "" |};
      {| Types.id := JS.string_of_Z (now' opening + 1); sender := Agent;
         text := currentOutputTranscriptionRef c ++ text |} ].
Proof. destruct c. vm_compute. reflexivity. Qed.

(** X28. What the user says is never shown: from [onopen] on, whatever
    messages arrive, the transcript is the User's entry, still empty,
    followed by the Agent's entry. *)
Theorem user_entry_stays_empty accounts c stream input output promise opening messages :
  let started := fst (startConversation (succeeding stream input output promise) c) in
  let open := fst (fst (onopen opening started)) in
  exists text,
    transcript (handleMessages entropy accounts open messages)
    = [ {| Types.id := JS.string_of_Z (now opening); sender := User; text := "" |};
        {| Types.id := JS.string_of_Z (now' opening + 1); sender := Agent; text := text |} ].
Proof.
  cbv zeta.
  set (open := fst (fst (onopen opening
                           (fst (startConversation
                                   (succeeding stream input output promise) c))))).
  pose proof (handleMessages_shape accounts messages open) as H.
  assert (Hopen : transcript open
                  = ([ {| Types.id := JS.string_of_Z (now opening); sender := User;
                          text := "" |} ]
                     ++ [ {| Types.id := JS.string_of_Z (now' opening + 1);
                             sender := Agent; text := "" |} ])%list).
  { subst open. destruct c. reflexivity. }
  rewrite Hopen in H. destruct (same_shape_snoc _ _ _ H) as [text Ht].
  exists text. exact Ht.
Qed.

Lemma transcriptions_fields content c :
  isRecording (transcriptions content c) = isRecording c
  /\ status (transcriptions content c) = status c
  /\ sessionPromiseRef (transcriptions content c) = sessionPromiseRef c
  /\ apiKeySelected (transcriptions content c) = apiKeySelected c.
Proof.
  destruct c. unfold transcriptions, transcription_branches, render.
  destruct (GenAI.outputTranscription content), (GenAI.inputTranscription content),
    (GenAI.turnComplete content); cbv zeta; cbn;
    repeat match goal with
      | |- context [JS.truthy (JS.trim (currentInputTranscriptionRef0 ++ ?t))] =>
          destruct (JS.truthy (JS.trim (currentInputTranscriptionRef0 ++ t))); cbn
      | |- context [JS.truthy (JS.trim currentInputTranscriptionRef0)] =>
          destruct (JS.truthy (JS.trim currentInputTranscriptionRef0)); cbn
      end;
    repeat match goal with
      | |- context [JS.truthy ?accumulated] => destruct (JS.truthy accumulated); cbn
      end;
    repeat split.
Qed.

Lemma handleMessage_fields accounts c message :
  let c' := component (handleMessage entropy accounts c message) in
  isRecording c' = isRecording c /\ status c' = status c
  /\ sessionPromiseRef c' = sessionPromiseRef c
  /\ apiKeySelected c' = apiKeySelected c.
Proof.
  cbv zeta.
  assert (Hcalled : forall toolCall,
             let called := component (handleToolCall entropy accounts c toolCall) in
             isRecording called = isRecording c /\ status called = status c
             /\ sessionPromiseRef called = sessionPromiseRef c
             /\ apiKeySelected called = apiKeySelected c).
  { intros toolCall. cbv zeta.
    assert (H : outside_bank (component (handleToolCall entropy accounts c toolCall))
                = outside_bank c).
    { unfold handleToolCall.
      destruct (sessionPromiseRef c); [apply for_of_outside_bank | reflexivity]. }
    unfold outside_bank in H. injection H as H1 _ _ H4 H5 H6. auto. }
  unfold handleMessage.
  destruct (GenAI.toolCall message) as [toolCall |].
  - destruct (Hcalled toolCall) as (H1 & H2 & H3 & H4).
    destruct (thrown (handleToolCall entropy accounts c toolCall)); [auto |].
    destruct (GenAI.serverContent message) as [content |]; [| auto].
    cbn [component].
    destruct (transcriptions_fields content
                (component (handleToolCall entropy accounts c toolCall)))
      as (T1 & T2 & T3 & T4).
    rewrite T1, T2, T3, T4. auto.
  - cbn [thrown component].
    destruct (GenAI.serverContent message) as [content |]; [| auto].
    cbn [component]. apply transcriptions_fields.
Qed.

End Reach.

(** ** Reachable states *)

Section Reach2.
Import Types Conversation Bank Transcript Session Shape Reachable Frame.
Variable entropy : Backend.Entropy.

Lemma startConversation_at_await attempt c :
  startConversation attempt c = after_await attempt (before_await c).
Proof. reflexivity. Qed.

Lemma stopConversation_consistent c : consistent (fst (stopConversation c)).
Proof. destruct c. vm_compute. split; [split; discriminate | reflexivity]. Qed.

Lemma stopConversation_idle c : status (fst (stopConversation c)) = idle.
Proof. reflexivity. Qed.

Lemma onerror_stops message c :
  exists c', fst (onerror message c) = fst (stopConversation c').
Proof.
  unfold onerror.
  match goal with
  | |- context [stopConversation ?x] => exists x; destruct (stopConversation x)
  end.
  reflexivity.
Qed.

Lemma onclose_stops c : fst (onclose c) = fst (stopConversation c).
Proof. unfold onclose. destruct (stopConversation c). reflexivity. Qed.

Lemma cleanup_stops recording c :
  fst (cleanup recording c) = if recording then fst (stopConversation c) else c.
Proof. unfold cleanup. destruct recording, (stopConversation c); reflexivity. Qed.

Lemma after_await_consistent attempt c :
  status c = connecting -> isRecording c = false -> sessionPromiseRef c = None ->
  consistent (fst (after_await attempt c)).
Proof.
  destruct c. cbn [status isRecording sessionPromiseRef]. intros -> -> ->.
  destruct attempt as [[stream | e1] [input | e2] [output | e3] [promise | e4]];
    vm_compute; (split; [split; discriminate | try reflexivity; discriminate]).
Qed.

Lemma after_await_recording attempt c :
  recording_while_connected c ->
  recording_while_connected (fst (after_await attempt c)).
Proof.
  destruct c. unfold recording_while_connected. cbn [status isRecording]. intros Hc.
  destruct attempt as [[stream | e1] [input | e2] [output | e3] [promise | e4]];
    cbn; try exact Hc; discriminate.
Qed.

Lemma onopen_consistent opening c :
  consistent c -> consistent (fst (fst (onopen opening c))).
Proof.
  destruct c as [? ? ? ? ? ? ? ? ? [context |] ? [stream |] ? ? ? ?];
    unfold consistent, onopen; cbn; try tauto.
  intros _. split; [split; reflexivity | discriminate].
Qed.

Lemma onopen_recording opening c :
  recording_while_connected c ->
  recording_while_connected (fst (fst (onopen opening c))).
Proof.
  destruct c as [? ? ? ? ? ? ? ? ? [context |] ? [stream |] ? ? ? ?];
    unfold recording_while_connected, onopen; cbn; tauto.
Qed.

(** Whatever the order of the events, a connected component records. *)
Lemma step_recording page event :
  recording_while_connected (shown page) ->
  recording_while_connected (shown (step entropy page event)).
Proof.
  intros Hc. unfold recording_while_connected.
  destruct event as [aistudio | aistudio | attempt | opening | message | |
                     accounts message | recording]; cbn [step shown].
  - (* mounted *)
    destruct (shown page), aistudio as [[selected | e] |]; exact Hc.
  - (* clicked *)
    unfold rendered_button.
    destruct (apiKeySelected (shown page)) eqn:Hkey.
    + destruct (status (shown page)) eqn:Hstatus, (isRecording (shown page)) eqn:Hrec;
        cbn [shown]; try (rewrite stopConversation_idle); try discriminate;
        try (intros _; exact Hrec).
      * rewrite Hstatus. discriminate.
      * rewrite Hstatus. discriminate.
    + cbn [shown]. destruct (shown page), aistudio as [[[] | e] |]; exact Hc.
  - (* settled *)
    destruct (awaiting page); cbn [shown]; [exact Hc |].
    apply after_await_recording, Hc.
  - (* opened *)
    apply onopen_recording, Hc.
  - (* errored *)
    destruct (onerror_stops message (shown page)) as [c' ->].
    rewrite stopConversation_idle. discriminate.
  - (* closed *)
    rewrite onclose_stops, stopConversation_idle. discriminate.
  - (* received *)
    destruct (handleMessage_fields entropy accounts (shown page) message)
      as (H1 & H2 & _).
    rewrite H1, H2. exact Hc.
  - (* cleaned *)
    rewrite cleanup_stops. destruct recording; [| exact Hc].
    rewrite stopConversation_idle. discriminate.
Qed.

Lemma run_recording events :
  forall page,
    recording_while_connected (shown page) ->
    recording_while_connected (shown (run entropy page events)).
Proof.
  unfold run. induction events as [| event rest IH]; intros page Hc; cbn [fold_left];
    [exact Hc |].
  apply IH, step_recording, Hc.
Qed.

(** An event that finds no call of [startConversation] suspended. *)
Lemma step_settled page event :
  awaiting page = 0%nat -> consistent (shown page) ->
  settled_or_begun (step entropy page event).
Proof.
  intros Hnone Hc. unfold settled_or_begun.
  destruct event as [aistudio | aistudio | attempt | opening | message | |
                     accounts message | recording]; cbn [step shown awaiting];
    rewrite ?Hnone.
  - (* mounted *)
    destruct (shown page), aistudio as [[selected | e] |]; exact Hc.
  - (* clicked *)
    unfold rendered_button.
    destruct (apiKeySelected (shown page)) eqn:Hkey.
    + destruct (status (shown page)) eqn:Hstatus.
      * destruct (isRecording (shown page)) eqn:Hrec; cbn [shown awaiting]; rewrite ?Hnone.
        -- apply stopConversation_consistent.
        -- split; [reflexivity | split; [exact Hrec |]].
           apply (proj2 Hc). exact Hstatus.
      * rewrite ?Hnone. exact Hc.
      * destruct (isRecording (shown page)) eqn:Hrec; cbn [shown awaiting]; rewrite ?Hnone.
        -- apply stopConversation_consistent.
        -- exfalso. destruct Hc as [[_ Hc] _]. rewrite Hc in Hrec by exact Hstatus.
           discriminate Hrec.
    + cbn [shown awaiting]. rewrite ?Hnone.
      destruct (shown page), aistudio as [[[] | e] |]; exact Hc.
  - (* settled *)
    rewrite ?Hnone. exact Hc.
  - (* opened *)
    apply onopen_consistent, Hc.
  - (* errored *)
    destruct (onerror_stops message (shown page)) as [c' ->].
    apply stopConversation_consistent.
  - (* closed *)
    rewrite onclose_stops. apply stopConversation_consistent.
  - (* received *)
    destruct (handleMessage_fields entropy accounts (shown page) message)
      as (H1 & H2 & H3 & _).
    unfold consistent. rewrite H1, H2, H3. exact Hc.
  - (* cleaned *)
    rewrite cleanup_stops. destruct recording; [| exact Hc].
    apply stopConversation_consistent.
Qed.

Lemma run_undisturbed events :
  forall page,
    settled_or_begun page ->
    undisturbed entropy page events = true ->
    settled_or_begun (run entropy page events).
Proof.
  unfold run. induction events as [| event rest IH]; intros page Hpage Hevents;
    cbn [fold_left]; [exact Hpage |].
  cbn [undisturbed] in Hevents. unfold settled_or_begun in Hpage.
  destruct (awaiting page) as [| [| others]] eqn:Hawaiting.
  - apply IH; [| exact Hevents]. apply step_settled; assumption.
  - destruct event; try discriminate Hevents.
    apply IH; [| exact Hevents].
    destruct Hpage as (Hstatus & Hrec & Hsession).
    unfold settled_or_begun. cbn [step]. rewrite Hawaiting. cbn [awaiting shown].
    apply after_await_consistent; assumption.
  - contradiction.
Qed.

(** X29. Whatever has happened to the component since it was mounted, in
    whatever order, a session button that reads 'End Session' is enabled
    and stops the conversation. When no event came between a click that
    starts a conversation and the settling of its [getUserMedia], the
    button is one of three: 'Start Session', enabled, starting, with no
    session promise held; 'Connecting...', disabled; 'End Session', enabled,
    stopping. *)
Theorem reachable_button events :
  let c := shown (run entropy initial_page events) in
  match rendered_button c with
  | select_api_key => apiKeySelected c = false
  | session_button label disabled stops =>
      (label = " End Session" -> disabled = false /\ stops = true)
      /\ (undisturbed entropy initial_page events = true ->
          (label = " Start Session" /\ disabled = false /\ stops = false
           /\ sessionPromiseRef c = None)
          \/ (label = " Connecting..." /\ disabled = true /\ stops = false)
          \/ (label = " End Session" /\ disabled = false /\ stops = true))
  end.
Proof.
  cbv zeta.
  assert (Hany : recording_while_connected (shown (run entropy initial_page events))).
  { apply run_recording. intros H. discriminate H. }
  assert (Hcalm : undisturbed entropy initial_page events = true ->
                  settled_or_begun (run entropy initial_page events)).
  { apply run_undisturbed. vm_compute. split; [split; discriminate | reflexivity]. }
  unfold settled_or_begun in Hcalm. unfold recording_while_connected in Hany.
  unfold rendered_button.
  destruct (apiKeySelected _); [| reflexivity].
  set (c := shown (run entropy initial_page events)) in *.
  assert (Hrec : undisturbed entropy initial_page events = true ->
                 status c <> connected -> isRecording c = false).
  { intros Hevents Hstatus. specialize (Hcalm Hevents).
    destruct (awaiting _) as [| [| others]].
    - destruct Hcalm as [[Hrec _] _].
      destruct (isRecording c); [| reflexivity]. elim Hstatus. apply Hrec. reflexivity.
    - apply Hcalm.
    - contradiction. }
  assert (Hidle : undisturbed entropy initial_page events = true ->
                  status c = idle -> sessionPromiseRef c = None).
  { intros Hevents Hstatus. specialize (Hcalm Hevents).
    destruct (awaiting _) as [| [| others]].
    - apply Hcalm, Hstatus.
    - destruct Hcalm as (H & _). rewrite H in Hstatus. discriminate Hstatus.
    - contradiction. }
  destruct (status c) eqn:Hstatus; cbn [getButtonContent].
  - split; [discriminate |]. intros Hevents.
    left. repeat split; [apply Hrec; [exact Hevents | discriminate] |].
    apply Hidle; [exact Hevents | reflexivity].
  - split; [discriminate |]. intros Hevents.
    right. left. repeat split. apply Hrec; [exact Hevents | discriminate].
  - split; [intros _; split; [reflexivity | apply Hany; reflexivity] |].
    intros _. right. right. repeat split. apply Hany. reflexivity.
Qed.

End Reach2.

(** ** The history panel *)


Section Panels.
Import Conversation Bank TransactionHistory.
Variable entropy : Backend.Entropy.

(** X30. After a history lookup that was answered, the panel agrees with the
    answer: it lists as many rows as the answer counts transactions,
    under the account type as the call spells it; with a count of zero it
    says that there are none; and when the call spells the account type as
    the empty string it still asks the user to ask. *)
Theorem panel_after_history accounts c p fc :
  sessionPromiseRef c = Some p ->
  GenAI.name fc = "getTransactionHistory" ->
  thrown (handleToolCall entropy accounts c [fc]) = None ->
  let out := handleToolCall entropy accounts c [fc] in
  let name := GenAI.accountType (GenAI.args fc) in
  exists retrieved,
    effects out = [response_to p fc (history_result true retrieved)]
    /\ match panel (component out) with
       | ask_the_agent => name = ""
       | no_transactions shown => shown = name /\ name <> "" /\ retrieved = 0%nat
       | recent_transactions shown rows =>
           shown = name /\ name <> "" /\ List.length rows = retrieved
           /\ retrieved <> 0%nat
       end.
Proof.
  intros Hp Hn Hcalm out name. subst out. revert Hcalm.
  unfold handleToolCall. rewrite Hp. cbn [for_of].
  rewrite (switch_getTransactionHistory entropy accounts c fc Hn). cbv zeta.
  destruct (Backend.getMockTransactionHistory entropy _ _) as [history | e];
    cbn [thrown component effects]; [intros _ | discriminate].
  exists (List.length history). split; [reflexivity |].
  unfold panel, TransactionHistory.
  replace (viewingHistory (setViewingHistory (Some (GenAI.accountType (GenAI.args fc)))
                             (setTransactions history c)))
    with (Some name) by (destruct c; reflexivity).
  replace (transactions (setViewingHistory (Some (GenAI.accountType (GenAI.args fc)))
                           (setTransactions history c)))
    with history by (destruct c; reflexivity).
  unfold JS.truthy. destruct (String.eqb_spec name "") as [E | E]; cbn [negb].
  - exact E.
  - destruct history as [| tx rest]; cbn [List.length Nat.ltb Nat.leb].
    + repeat split; assumption.
    + repeat split; [assumption | apply length_map | discriminate].
Qed.

End Panels.

(** ** Further closed instances *)

Section MoreInstances.
Import Types Conversation Bank Transcript Session Shape Reachable Frame TransactionHistory.

Lemma sample_entropy_unit_interval n :
  (0 <= Backend.randoms Backend.sample_entropy n)%Q
  /\ (Backend.randoms Backend.sample_entropy n < 1)%Q.
Proof.
  unfold Backend.sample_entropy, Qle, Qlt. cbn [Backend.randoms Qnum Qden].
  pose proof (Nat.mod_upper_bound n 10). lia.
Defined.

(** The third transaction of the sample checking list is dated two days
    before the first reading of the clock. *)
Lemma generateRandomTransactions_dates_witness :
  exists tx,
    nth_error (fst (Backend.generateRandomTransactions Backend.sample_entropy
                      Backend.Checking 20 {| Backend.drawn := 0; Backend.read := 0 |})) 2
    = Some tx
    /\ Backend.date tx = 1700000000000 - 2 * 86400000.
Proof.
  eexists. split; [vm_compute; reflexivity |].
  apply (generateRandomTransactions_dates Backend.sample_entropy Backend.Checking 20
           {| Backend.drawn := 0; Backend.read := 0 |} 2).
  vm_compute. reflexivity.
Defined.

(** The first sample savings transaction. *)
Lemma mockData_amounts_witness :
  exists tx,
    nth_error (stored Backend.sample_entropy Backend.Savings) 0 = Some tx
    /\ (5 <= Backend.amount tx)%Q /\ (Backend.amount tx <= 505)%Q.
Proof.
  eexists. split; [vm_compute; reflexivity |].
  match goal with
  | |- (5 <= Backend.amount ?tx)%Q /\ _ =>
      destruct (mockData_amounts Backend.sample_entropy Backend.Savings tx
                  sample_entropy_unit_interval) as (Hlo & Hhi & _)
  end.
  - vm_compute. left. reflexivity.
  - split; assumption.
Defined.

Lemma mockData_descriptions_witness :
  exists tx,
    nth_error (stored Backend.sample_entropy Backend.Checking) 0 = Some tx
    /\ In (Backend.description tx) (Backend.descriptions Backend.Checking).
Proof.
  eexists. split; [vm_compute; reflexivity |].
  match goal with
  | |- In (Backend.description ?tx) _ =>
      apply (mockData_descriptions Backend.sample_entropy Backend.Checking tx
               sample_entropy_unit_interval)
  end.
  vm_compute. left. reflexivity.
Defined.

Lemma getMockTransactionHistory_prefix_witness :
  exists history rest,
    Backend.getMockTransactionHistory Backend.sample_entropy "savings" (Some 3)
    = JS.Normal history
    /\ stored Backend.sample_entropy Backend.Savings = (history ++ rest)%list.
Proof.
  exact (getMockTransactionHistory_prefix Backend.sample_entropy "savings"
           Backend.Savings (Some 3) eq_refl).
Defined.

Lemma getMockTransactionHistory_monotone_witness :
  exists shorter longer more,
    Backend.getMockTransactionHistory Backend.sample_entropy "checking" (Some 3)
    = JS.Normal shorter
    /\ Backend.getMockTransactionHistory Backend.sample_entropy "checking" (Some 30)
       = JS.Normal longer
    /\ longer = (shorter ++ more)%list.
Proof.
  apply (getMockTransactionHistory_monotone Backend.sample_entropy "checking"
           Backend.Checking 3 30 eq_refl).
  lia.
Defined.

Lemma getMockTransactionHistory_negative_witness :
  exists history,
    Backend.getMockTransactionHistory Backend.sample_entropy "savings" (Some (-20))
    = JS.Normal history
    /\ Z.of_nat (List.length history) = 0.
Proof.
  apply (getMockTransactionHistory_negative Backend.sample_entropy "savings"
           Backend.Savings (-20) eq_refl).
  lia.
Defined.


Lemma handleToolCall_answers_each_witness :
  Forall2 (fun fc sent => exists result, sent = response_to 7%nat fc result)
    three_calls
    (effects (handleToolCall Backend.sample_entropy (accounts in_session) in_session
                three_calls)).
Proof.
  apply (handleToolCall_answers_each Backend.sample_entropy (accounts in_session)
           in_session 7%nat three_calls eq_refl).
  vm_compute. reflexivity.
Defined.

Lemma handleToolCall_throws_iff_witness :
  thrown (handleToolCall Backend.sample_entropy (accounts in_session) in_session
            [lookup "getTransactionHistory" "toString" None]) = None.
Proof.
  destruct (thrown (handleToolCall Backend.sample_entropy (accounts in_session)
                      in_session [lookup "getTransactionHistory" "toString" None]))
    as [e |] eqn:E; [exfalso | reflexivity].
  assert (Hthrown : thrown (handleToolCall Backend.sample_entropy (accounts in_session)
                              in_session [lookup "getTransactionHistory" "toString" None])
                    <> None) by (rewrite E; discriminate).
  apply (handleToolCall_throws_iff Backend.sample_entropy (accounts in_session)
           in_session 7%nat _ eq_refl) in Hthrown.
  inversion Hthrown as [? ? [_ Hin] | ? ? Hrest]; subst; [| inversion Hrest].
  vm_compute in Hin.
  repeat (destruct Hin as [Hin | Hin]; [discriminate Hin |]). exact Hin.
Defined.

Lemma handleToolCall_stops_at_throw_witness :
  let toolCall :=
    [ transfer 300 "savings" "checking";
      lookup "getTransactionHistory" "__proto__" None;
      transfer 300 "savings" "checking" ] in
  let out :=
    handleToolCall Backend.sample_entropy (accounts in_session) in_session toolCall in
  accounts (component out) = {| checking := 1300; savings := 4700 |}
  /\ List.length (effects out) = 1%nat.
Proof.
  cbv zeta.
  destruct (handleToolCall_stops_at_throw Backend.sample_entropy (accounts in_session)
              in_session 7%nat [transfer 300 "savings" "checking"]
              (lookup "getTransactionHistory" "__proto__" None)
              [transfer 300 "savings" "checking"] eq_refl eq_refl)
    as (Hc & He & _).
  - split; [reflexivity |]. vm_compute. tauto.
  - cbn [app] in Hc, He. rewrite Hc, He. split; reflexivity.
Defined.

Lemma handleToolCall_conserves_total_witness :
  let after :=
    accounts (component (handleToolCall Backend.sample_entropy (accounts in_session)
                           in_session three_calls)) in
  Numbers.moved three_calls = 300
  /\ total after = 6000
  /\ Z.abs (checking after) <= 1000 + 300.
Proof.
  cbv zeta. split; [reflexivity |].
  destruct (handleToolCall_conserves_total Backend.sample_entropy (accounts in_session)
              in_session three_calls) as (Htotal & Hrange).
  - repeat constructor; intros [Hn Hsame]; vm_compute in Hn, Hsame; discriminate.
  - vm_compute. discriminate.
  - split; [exact Htotal | exact (proj1 (Hrange Backend.Checking))].
Defined.

Lemma getTransactionHistory_unknown_account_witness :
  let fc := lookup "getTransactionHistory" "Brokerage" None in
  effects (handleToolCall Backend.sample_entropy (accounts in_session) in_session [fc])
  = [response_to 7%nat fc (history_result true 0)].
Proof.
  cbv zeta.
  rewrite (getTransactionHistory_unknown_account Backend.sample_entropy
             (accounts in_session) in_session 7%nat
             (lookup "getTransactionHistory" "Brokerage" None) eq_refl eq_refl eq_refl).
  - reflexivity.
  - vm_compute. intros H.
    repeat (destruct H as [H | H]; [discriminate H |]). exact H.
Defined.

Lemma handleToolCall_no_overdraft_witness :
  let after :=
    accounts (component (handleToolCall Backend.sample_entropy (accounts in_session)
                           in_session [transfer 1000 "checking" "savings"])) in
  0 <= checking after /\ 0 <= savings after.
Proof.
  apply (handleToolCall_no_overdraft Backend.sample_entropy in_session
           (transfer 1000 "checking" "savings")); vm_compute; discriminate.
Defined.

Lemma transferFunds_reports_new_balance_witness :
  let fc := transfer 250 "Checking" "Savings" in
  let out := handleToolCall Backend.sample_entropy (accounts in_session) in_session [fc] in
  exists fromAccount toAccount,
    effects out = [response_to 7%nat fc (transfer_result true fromAccount toAccount 250 750)].
Proof.
  cbv zeta.
  destruct (transferFunds_reports_new_balance Backend.sample_entropy in_session 7%nat
              (transfer 250 "Checking" "Savings") Backend.Checking Backend.Savings
              eq_refl eq_refl eq_refl eq_refl)
    as (fromAccount & toAccount & H).
  - discriminate.
  - vm_compute. discriminate.
  - exists fromAccount, toAccount. exact H.
Defined.

Lemma handleMessages_change_last_text_only_witness :
  exists text,
    transcript (handleMessages Backend.sample_entropy (accounts listening) listening
                  [output_chunk "lo"; turn_complete; output_chunk "Bye"])
    = [ {| Types.id := "1"; sender := User; text := "" |};
        {| Types.id := "2"; sender := Agent; text := text |} ].
Proof.
  exact (proj2 (handleMessages_change_last_text_only Backend.sample_entropy
                  (accounts listening) listening
                  [output_chunk "lo"; turn_complete; output_chunk "Bye"])
           [ {| Types.id := "1"; sender := User; text := "" |} ]
           {| Types.id := "2"; sender := Agent; text := "Hel" |} eq_refl).
Defined.

Lemma output_chunks_accumulate_witness :
  let c' :=
    handleMessages Backend.sample_entropy (accounts listening) listening
      (map output_chunk ["lo"; ", "; "world"]) in
  currentOutputTranscriptionRef c' = "Hello, world".
Proof.
  exact (proj1 (output_chunks_accumulate Backend.sample_entropy (accounts listening)
                  [", "; "world"] listening
                  [ {| Types.id := "1"; sender := User; text := "" |} ]
                  {| Types.id := "2"; sender := Agent; text := "Hel" |} "lo"
                  eq_refl eq_refl)).
Defined.

Lemma next_turn_overwrites_witness :
  transcript (handleMessages Backend.sample_entropy (accounts listening) listening
                [turn_complete; output_chunk "Bye"])
  = [ {| Types.id := "1"; sender := User; text := "" |};
      {| Types.id := "2"; sender := Agent; text := "Bye" |} ].
Proof.
  exact (proj2 (next_turn_overwrites Backend.sample_entropy (accounts listening) listening
                  "Bye" [ {| Types.id := "1"; sender := User; text := "" |} ]
                  {| Types.id := "2"; sender := Agent; text := "Hel" |} eq_refl eq_refl)).
Defined.

Lemma failed_start_leaks_witness :
  let failed :=
    startConversation (failing_to_connect 1%nat 2%nat 3%nat (JS.TypeError "no key"))
      initial in
  let started := startConversation (succeeding 4%nat 5%nat 6%nat 7%nat) (fst failed) in
  ~ In (stop_tracks 1%nat)
      (snd failed ++ snd started ++ snd (stopConversation (fst started)))%list.
Proof.
  cbv zeta. intros Hin.
  destruct (failed_start_leaks initial 1%nat 2%nat 3%nat (JS.TypeError "no key")
              4%nat 5%nat 6%nat 7%nat)
    as (_ & _ & Hleak); try discriminate.
  destruct (Hleak _ Hin) as (Hstream & _). apply Hstream. reflexivity.
Defined.

Lemma onopen_entries_witness :
  JS.string_of_Z 1700000000000 <> JS.string_of_Z (1700000000000 + 1).
Proof.
  destruct (onopen_entries initial 1%nat 2%nat 3%nat 4%nat
              {| createMediaStreamSource := 5%nat; createScriptProcessor := 6%nat;
                 now := 1700000000000; now' := 1700000000000 |})
    as (_ & _ & _ & Hids).
  apply Hids. cbn. lia.
Defined.

(** Outside AI Studio: mount, click, microphone granted, session opened. *)
Lemma reachable_button_witness :
  let events :=
    [ mounted None; clicked None; settled (succeeding 1%nat 2%nat 3%nat 4%nat);
      opened {| createMediaStreamSource := 5%nat; createScriptProcessor := 6%nat;
                now := 1700000000000; now' := 1700000000000 |} ] in
  undisturbed Backend.sample_entropy initial_page events = true
  /\ ((" End Session" = " Start Session" /\ false = false /\ true = false
       /\ Some 4%nat = None)
      \/ (" End Session" = " Connecting..." /\ false = true /\ true = false)
      \/ (" End Session" = " End Session" /\ false = false /\ true = true)).
Proof.
  cbv zeta. split; [vm_compute; reflexivity |].
  pose proof
    (reachable_button Backend.sample_entropy
       [ mounted None; clicked None; settled (succeeding 1%nat 2%nat 3%nat 4%nat);
         opened {| createMediaStreamSource := 5%nat; createScriptProcessor := 6%nat;
                   now := 1700000000000; now' := 1700000000000 |} ]) as H.
  vm_compute in H. exact (proj2 H eq_refl).
Defined.

(** Events that come while [startConversation] waits for the microphone.
    A session is opened and ended, and 'Start Session' is clicked; while
    that start waits, the session of before closes and sets the status to
    idle. In the first run the start then goes on: it stores its session
    promise in an idle component, and the button offers 'Start Session'
    while a session is being opened. In the second run the button is
    clicked once more before that; the first start goes on and its session
    opens, then the second start goes on and is refused the microphone: the
    button reads 'Start Session', and a click on it stops. *)
Example start_disturbed_by_events :
  let opening :=
    {| createMediaStreamSource := 5%nat; createScriptProcessor := 6%nat;
       now := 1700000000000; now' := 1700000000000 |} in
  let refused :=
    {| getUserMedia := JS.Throw (JS.Rejected "NotAllowedError");
       new_inputAudioContext := JS.Normal 12%nat;
       new_outputAudioContext := JS.Normal 13%nat;
       live_connect := JS.Normal 14%nat |} in
  let ended :=
    run Backend.sample_entropy initial_page
      [ mounted None; clicked None; settled (succeeding 1%nat 2%nat 3%nat 4%nat);
        opened opening; clicked None ] in
  let first :=
    run Backend.sample_entropy ended
      [ clicked None; closed; settled (succeeding 8%nat 9%nat 10%nat 11%nat) ] in
  let second :=
    run Backend.sample_entropy ended
      [ clicked None; closed; clicked None;
        settled (succeeding 8%nat 9%nat 10%nat 11%nat); opened opening;
        settled refused ] in
  rendered_button (shown ended) = session_button " Start Session" false false
  /\ (rendered_button (shown first) = session_button " Start Session" false false
      /\ sessionPromiseRef (shown first) = Some 11%nat)
  /\ rendered_button (shown second) = session_button " Start Session" false true.
Proof. cbv zeta. repeat split; vm_compute; reflexivity. Qed.

(** On the doubles of the source a transfer with cents does not keep the
    sum: 0.01 and then 0.02 moved from checking to savings, with 1000 and
    5000, leave a sum that is not 6000. *)
Example transfers_with_cents_round :
  let cent := (1 / 100)%float in
  let after :=
    Doubles.transfer_update Backend.Checking Backend.Savings (2 / 100)%float
      (Doubles.transfer_update Backend.Checking Backend.Savings cent Doubles.initial) in
  PrimFloat.eqb (Doubles.total Doubles.initial) 6000%float = true
  /\ PrimFloat.eqb (Doubles.total after) 6000%float = false.
Proof. cbv zeta. split; vm_compute; reflexivity. Qed.

(** The first two savings transactions, asked for as 'Savings'. *)
Lemma panel_after_history_witness :
  let fc := lookup "getTransactionHistory" "Savings" (Some 2) in
  let out := handleToolCall Backend.sample_entropy (accounts in_session) in_session [fc] in
  exists retrieved,
    effects out = [response_to 7%nat fc (history_result true retrieved)]
    /\ match panel (component out) with
       | ask_the_agent => "Savings" = ""
       | no_transactions shown => shown = "Savings" /\ "Savings" <> "" /\ retrieved = 0%nat
       | recent_transactions shown rows =>
           shown = "Savings" /\ "Savings" <> "" /\ List.length rows = retrieved
           /\ retrieved <> 0%nat
       end.
Proof.
  apply (panel_after_history Backend.sample_entropy (accounts in_session) in_session
           7%nat (lookup "getTransactionHistory" "Savings" (Some 2)) eq_refl eq_refl).
  vm_compute. reflexivity.
Defined.

End MoreInstances.
